(** * Command Execution Engine: a shallow embedding of
    [backend/terminal_manager.py] (class [TerminalManager]).

    Python strings are modelled as [string] (characters are code points
    below 256), Python [int]s as [Z], the [running_processes] dict as a
    [gmap], the two [installed_packages] sets as [gset]s.  Coroutines are
    modelled as atomic state transformers over the manager's attributes;
    what a spawned child process does is supplied by a [World]. *)

From Stdlib Require Import ZArith Ascii String List Bool Lia.
From stdpp Require Import base option list gmap strings pretty.

Open Scope string_scope.
Open Scope Z_scope.

(** ** Python [str] operations *)

Module PyStr.

(** [str.isspace] on one character: TAB..CR, FS..US, space, NEL, NBSP.
    This is also what [\s] matches in [re] on a [str] pattern. *)
Definition is_space (c : ascii) : bool :=
  let n := nat_of_ascii c in
  ((9 <=? n) && (n <=? 13))%nat || ((28 <=? n) && (n <=? 32))%nat
  || (n =? 133)%nat || (n =? 160)%nat.

(** [s.startswith(p)] *)
Fixpoint startswith (p s : string) : bool :=
  match p, s with
  | EmptyString, _ => true
  | String a p', String b s' => Ascii.eqb a b && startswith p' s'
  | String _ _, EmptyString => false
  end.

(** [p in s] for strings: [p] occurs in [s] as a contiguous substring. *)
Fixpoint contains (p s : string) : bool :=
  startswith p s ||
  match s with
  | EmptyString => false
  | String _ s' => contains p s'
  end.

(** [s.endswith(c)] for a one-character suffix. *)
Fixpoint endswith_char (c : ascii) (s : string) : bool :=
  match s with
  | EmptyString => false
  | String a EmptyString => Ascii.eqb a c
  | String _ s' => endswith_char c s'
  end.

(** [s[n:]] *)
Fixpoint drop (n : nat) (s : string) : string :=
  match n, s with
  | O, _ => s
  | S n', String _ s' => drop n' s'
  | S _, EmptyString => EmptyString
  end.

(** [s.lstrip()] *)
Fixpoint lstrip (s : string) : string :=
  match s with
  | String c s' => if is_space c then lstrip s' else s
  | EmptyString => EmptyString
  end.

(** [s.rstrip()] *)
Fixpoint rstrip (s : string) : string :=
  match s with
  | EmptyString => EmptyString
  | String c s' =>
      match rstrip s' with
      | EmptyString => if is_space c then EmptyString else String c EmptyString
      | r => String c r
      end
  end.

(** [s.strip()] *)
Definition strip (s : string) : string := rstrip (lstrip s).

(** [s.rstrip(c)] for a one-character set. *)
Fixpoint rstrip_char (c : ascii) (s : string) : string :=
  match s with
  | EmptyString => EmptyString
  | String a s' =>
      match rstrip_char c s' with
      | EmptyString => if Ascii.eqb a c then EmptyString else String a EmptyString
      | r => String a r
      end
  end.

(** [s.replace(old, new)] for a non-empty [old]: left to right, matches do
    not overlap.  [skip] counts the characters of a match still to drop. *)
Fixpoint replace_from (old new : string) (skip : nat) (s : string) : string :=
  match s with
  | EmptyString => EmptyString
  | String c s' =>
      match skip with
      | S k => replace_from old new k s'
      | O =>
          if startswith old s
          then new ++ replace_from old new (String.length old - 1) s'
          else String c (replace_from old new O s')
      end
  end.

Definition replace (old new s : string) : string := replace_from old new O s.

(** [re.sub(r'\s+', ' ', s)]: every maximal run of whitespace becomes one
    space.  [in_run] tells whether the previous character was whitespace. *)
Fixpoint collapse_ws (in_run : bool) (s : string) : string :=
  match s with
  | EmptyString => EmptyString
  | String c s' =>
      if is_space c
      then if in_run then collapse_ws true s' else String " " (collapse_ws true s')
      else String c (collapse_ws false s')
  end.

(** [s.split()]: the maximal runs of non-whitespace characters.  [cur] is
    the word being read, reversed. *)
Fixpoint split_from (cur : string) (s : string) : list string :=
  match s with
  | EmptyString =>
      match cur with EmptyString => [] | _ => [String.rev cur] end
  | String c s' =>
      if is_space c
      then match cur with
           | EmptyString => split_from EmptyString s'
           | _ => String.rev cur :: split_from EmptyString s'
           end
      else split_from (String c cur) s'
  end.

Definition split (s : string) : list string := split_from EmptyString s.

(** [sep.join(l)] *)
Fixpoint join (sep : string) (l : list string) : string :=
  match l with
  | [] => EmptyString
  | [x] => x
  | x :: l' => x ++ sep ++ join sep l'
  end.

(** [x in l] for a list of strings. *)
Definition mem (x : string) (l : list string) : bool :=
  existsb (String.eqb x) l.

(** [str(n)] for an [int]. *)
Definition of_int (n : Z) : string := pretty n.

(** [str(b)] for a [bool]. *)
Definition of_bool (b : bool) : string := if b then "True" else "False".

End PyStr.

(** ** [os.path] (posixpath) *)

Module PosixPath.
Import PyStr.

Definition sep : ascii := "/"%char.

(** [os.path.join(a, b)]. *)
Definition join (a b : string) : string :=
  if startswith "/" b then b
  else if (String.eqb a EmptyString || endswith_char sep a)%bool then a ++ b
  else a ++ "/" ++ b.

(** [p[:p.rfind('/') + 1]]: [p] up to and including its last separator. *)
Fixpoint head_of (p : string) : string :=
  match p with
  | EmptyString => EmptyString
  | String c p' =>
      match head_of p' with
      | EmptyString => if Ascii.eqb c sep then String c EmptyString else EmptyString
      | h => String c h
      end
  end.

(** [head == sep * len(head)] *)
Fixpoint all_sep (s : string) : bool :=
  match s with
  | EmptyString => true
  | String c s' => Ascii.eqb c sep && all_sep s'
  end.

(** [os.path.dirname(p)]. *)
Definition dirname (p : string) : string :=
  let head := head_of p in
  if (negb (String.eqb head EmptyString) && negb (all_sep head))%bool
  then rstrip_char sep head
  else head.

End PosixPath.

(** ** The manager's state *)

(** One entry of [self.running_processes].  The live process handle is not
    part of the record: what it does is described by a [StreamRun] below;
    [start_time] is a float and is left out. *)
Record ProcessInfo := mkProcessInfo {
  p_command : string;
  p_background : bool;
  p_timeout : Z;
  p_output : list string
}.

(** Observable effects, kept as a ghost log (most recent last). *)
Inductive Event :=
| EvSpawned (command : string)
    (* asyncio.create_subprocess_shell(command) created a child *)
| EvTerminate (command : string)
    (* process.terminate() was called on the child running [command] *)
| EvCreateTask (process_id : string)
    (* asyncio.create_task(self._monitor_background_process(process_id)) *)
| EvBroadcast (update_type : string) (data : list (string * string)).
    (* self._broadcast_terminal_update(update_type, data); the timestamp
       and duration floats of the payload are left out *)

Record TerminalManager := mkTerminalManager {
  terminal_container_name : string;
  command_timeout : Z;
  command_history : list string;
  output_history : list string;
  running_processes : gmap string ProcessInfo;
  installed_pip : gset string;       (* installed_packages["pip"] *)
  installed_npm : gset string;       (* installed_packages["npm"] *)
  working_directory : string;
  events : list Event
}.

(** [TerminalManager.__init__] *)
Definition init (name : string) (timeout : Z) : TerminalManager :=
  {| terminal_container_name := name;
     command_timeout := timeout;
     command_history := [];
     output_history := [];
     running_processes := ∅;
     installed_pip := ∅;
     installed_npm := ∅;
     working_directory := "/workspace";
     events := [] |}.

Definition set_working_directory (v : string) (s : TerminalManager) :=
  {| terminal_container_name := terminal_container_name s;
     command_timeout := command_timeout s;
     command_history := command_history s;
     output_history := output_history s;
     running_processes := running_processes s;
     installed_pip := installed_pip s;
     installed_npm := installed_npm s;
     working_directory := v;
     events := events s |}.

Definition set_command_history (v : list string) (s : TerminalManager) :=
  {| terminal_container_name := terminal_container_name s;
     command_timeout := command_timeout s;
     command_history := v;
     output_history := output_history s;
     running_processes := running_processes s;
     installed_pip := installed_pip s;
     installed_npm := installed_npm s;
     working_directory := working_directory s;
     events := events s |}.

Definition set_output_history (v : list string) (s : TerminalManager) :=
  {| terminal_container_name := terminal_container_name s;
     command_timeout := command_timeout s;
     command_history := command_history s;
     output_history := v;
     running_processes := running_processes s;
     installed_pip := installed_pip s;
     installed_npm := installed_npm s;
     working_directory := working_directory s;
     events := events s |}.

Definition set_running_processes (v : gmap string ProcessInfo) (s : TerminalManager) :=
  {| terminal_container_name := terminal_container_name s;
     command_timeout := command_timeout s;
     command_history := command_history s;
     output_history := output_history s;
     running_processes := v;
     installed_pip := installed_pip s;
     installed_npm := installed_npm s;
     working_directory := working_directory s;
     events := events s |}.

Definition set_installed_pip (v : gset string) (s : TerminalManager) :=
  {| terminal_container_name := terminal_container_name s;
     command_timeout := command_timeout s;
     command_history := command_history s;
     output_history := output_history s;
     running_processes := running_processes s;
     installed_pip := v;
     installed_npm := installed_npm s;
     working_directory := working_directory s;
     events := events s |}.

Definition set_installed_npm (v : gset string) (s : TerminalManager) :=
  {| terminal_container_name := terminal_container_name s;
     command_timeout := command_timeout s;
     command_history := command_history s;
     output_history := output_history s;
     running_processes := running_processes s;
     installed_pip := installed_pip s;
     installed_npm := v;
     working_directory := working_directory s;
     events := events s |}.

Definition set_events (v : list Event) (s : TerminalManager) :=
  {| terminal_container_name := terminal_container_name s;
     command_timeout := command_timeout s;
     command_history := command_history s;
     output_history := output_history s;
     running_processes := running_processes s;
     installed_pip := installed_pip s;
     installed_npm := installed_npm s;
     working_directory := working_directory s;
     events := v |}.

(** ** The outside world *)

(** What a child does after [process.terminate()] followed by
    [await process.wait()]. *)
Inductive TermResponse :=
| TermExits      (* the child exits; wait() returns *)
| TermRaises     (* terminate()/wait() raises; swallowed by [except Exception: pass] *)
| TermIgnored.   (* the child ignores the signal; wait() never returns *)

(** A child observed through [asyncio.wait_for(self._stream_process_output(pid), timeout)].
    [chunks] are the decoded texts in the order the read loop appends them. *)
Inductive StreamRun :=
| StreamCompletes (chunks : list string) (returncode : Z)
| StreamTimesOut (chunks : list string) (r : TermResponse)
| StreamRaises (chunks : list string) (msg : string).

(** A child observed through [process.communicate()] in [_run_local_command]. *)
Inductive LocalRun :=
| LocalCompletes (stdout stderr : string) (returncode : Z)
| LocalOverruns (r : TermResponse).
    (* still running when the timeout expires; never finishes when there is none *)

Inductive Spawn (R : Type) :=
| SpawnFails (msg : string)     (* create_subprocess_shell raises; [msg] is str(e) *)
| Spawned (run : R).
Arguments SpawnFails {R} msg.
Arguments Spawned {R} run.

Record World := mkWorld {
  time_now : Z;                           (* int(time.time()) *)
  str_hash : string -> Z;                 (* hash(s) *)
  stream_shell : string -> Spawn StreamRun;
  local_shell : string -> Spawn LocalRun
}.

(** ** Coroutines as state transformers with exceptions *)

Inductive Exn :=
| TimeoutError               (* asyncio.TimeoutError *)
| Exception (msg : string).  (* any other exception, with its str(e) *)

Inductive Outcome (A : Type) :=
| Ret (a : A)
| Raise (e : Exn)
| Hang.            (* an await that never completes *)
Arguments Ret {A} a.
Arguments Raise {A} e.
Arguments Hang {A}.

Definition M (A : Type) : Type := TerminalManager -> TerminalManager * Outcome A.

Definition ret {A} (a : A) : M A := fun s => (s, Ret a).
Definition raise {A} (e : Exn) : M A := fun s => (s, Raise e).
Definition hang {A} : M A := fun s => (s, Hang).

Definition bind {A B} (m : M A) (k : A -> M B) : M B :=
  fun s =>
    match m s with
    | (s', Ret a) => k a s'
    | (s', Raise e) => (s', Raise e)
    | (s', Hang) => (s', Hang)
    end.

Definition gets {A} (f : TerminalManager -> A) : M A := fun s => (s, Ret (f s)).
Definition modify (f : TerminalManager -> TerminalManager) : M unit :=
  fun s => (f s, Ret tt).

(** [try: body  except asyncio.TimeoutError: on_timeout  except Exception as e: on_exc(str(e))] *)
Definition try_except {A} (body : M A) (on_timeout : M A) (on_exc : string -> M A) : M A :=
  fun s =>
    match body s with
    | (s', Raise TimeoutError) => on_timeout s'
    | (s', Raise (Exception msg)) => on_exc msg s'
    | r => r
    end.

(** [try: body  except asyncio.TimeoutError: on_timeout] *)
Definition try_except_timeout {A} (body : M A) (on_timeout : M A) : M A :=
  fun s =>
    match body s with
    | (s', Raise TimeoutError) => on_timeout s'
    | r => r
    end.

(** [try: body  finally: cleanup] *)
Definition try_finally {A} (body : M A) (cleanup : M unit) : M A :=
  fun s =>
    match body s with
    | (s', Hang) => (s', Hang)
    | (s', r) =>
        match cleanup s' with
        | (s'', Ret _) => (s'', r)
        | (s'', Raise e) => (s'', Raise e)
        | (s'', Hang) => (s'', Hang)
        end
    end.

Declare Scope py_scope.
Delimit Scope py_scope with py.
Notation "x <- m ;; k" := (bind m (fun x => k))
  (at level 100, m at next level, right associativity) : py_scope.
Notation "m ;; k" := (bind m (fun _ => k))
  (at level 100, right associativity) : py_scope.
Open Scope py_scope.

Definition log_event (e : Event) : M unit :=
  modify (fun s => set_events (events s ++ [e]) s).

(** [a or b] for an [Optional[int]] [a]. *)
Definition or_int (a : option Z) (b : Z) : Z :=
  match a with
  | Some n => if n =? 0 then b else n
  | None => b
  end.

(** [a or b] for an [Optional[str]] [a]. *)
Definition or_str (a : option string) (b : string) : string :=
  match a with
  | Some x => if String.eqb x EmptyString then b else x
  | None => b
  end.


(** ** The engine *)

Import PyStr.

Definition nl : string := String "010"%char EmptyString.
Definition backslash_nl : string := String "\"%char nl.

(** [self._broadcast_terminal_update(update_type, data)]: the sink is an
    external collaborator that is taken not to raise; the call is recorded
    and has no other effect on the manager. *)
Definition _broadcast_terminal_update (update_type : string)
    (data : list (string * string)) : M unit :=
  log_event (EvBroadcast update_type data).

(** [_clean_command] *)
Definition _clean_command (command : string) : string :=
  let command := strip command in
  let command := replace backslash_nl " " command in
  collapse_ws false command.

(** [_prepare_docker_command] *)
Definition _prepare_docker_command (command : string)
    (working_dir : option string) : M string :=
  wd <- gets working_directory ;;
  name <- gets terminal_container_name ;;
  let cwd := or_str working_dir wd in
  let escaped_command := replace "'" "'\''" command in
  ret ("docker exec -w " ++ cwd ++ " " ++ name ++ " bash -c '" ++ escaped_command ++ "'").

Definition error_keywords : list string :=
  [ "error:"; "Error:"; "ERROR:";
    "exception:"; "Exception:"; "EXCEPTION:";
    "failed:"; "Failed:"; "FAILED:";
    "command not found";
    "No such file or directory";
    "Permission denied";
    "fatal:";
    "Traceback (most recent call last)" ].

(** [_detect_error_in_output] *)
Definition _detect_error_in_output (output : string) : bool :=
  existsb (fun keyword => contains keyword output) error_keywords.

(** [process.terminate(); await process.wait()] inside
    [try: ... except Exception: pass]. *)
Definition terminate_and_wait (command : string) (r : TermResponse) : M unit :=
  log_event (EvTerminate command) ;;
  match r with
  | TermExits | TermRaises => ret tt
  | TermIgnored => hang
  end.

(** The text [_run_local_command] returns: stdout, then a newline and
    stderr when stderr is not empty. *)
Definition local_output (stdout stderr : string) : string :=
  let output := stdout in
  if String.eqb stderr EmptyString then output
  else output ++ nl ++ stderr.

(** [_run_local_command] *)
Definition _run_local_command (w : World) (command : string)
    (timeout : option Z) : M string :=
  match local_shell w command with
  | SpawnFails msg => raise (Exception msg)
  | Spawned run =>
      log_event (EvSpawned command) ;;
      match run with
      | LocalCompletes stdout stderr returncode =>
          ret (local_output stdout stderr)
      | LocalOverruns r =>
          match timeout with
          | None => hang
          | Some _ => terminate_and_wait command r ;; raise TimeoutError
          end
      end
  end.

(** [process_info["output"].append(text)] for each chunk read. *)
Definition append_output (process_id : string) (chunks : list string) : M unit :=
  modify (fun s =>
    set_running_processes
      (alter (fun info =>
                mkProcessInfo (p_command info) (p_background info)
                  (p_timeout info) (p_output info ++ chunks))
         process_id (running_processes s)) s).

(** [await asyncio.wait_for(self._stream_process_output(process_id), timeout)] *)
Definition wait_for_stream (run : StreamRun) (process_id : string) : M string :=
  rp <- gets running_processes ;;
  match rp !! process_id with
  | None => ret EmptyString
  | Some _ =>
      match run with
      | StreamCompletes chunks _ =>
          append_output process_id chunks ;;
          ret (String.concat EmptyString chunks)
      | StreamTimesOut chunks _ =>
          append_output process_id chunks ;;
          raise TimeoutError
      | StreamRaises chunks msg =>
          append_output process_id chunks ;;
          raise (Exception msg)
      end
  end.

(** [process.returncode]: [None] while the child has not finished. *)
Definition returncode (run : StreamRun) : option Z :=
  match run with
  | StreamCompletes _ rc => Some rc
  | _ => None
  end.

Definition term_response (run : StreamRun) : TermResponse :=
  match run with
  | StreamTimesOut _ r => r
  | _ => TermRaises
  end.

(** [process.returncode == 0] *)
Definition returncode_is_zero (run : StreamRun) : bool :=
  match returncode run with
  | Some rc => rc =? 0
  | None => false
  end.

(** [if process_id in self.running_processes: del self.running_processes[process_id]] *)
Definition remove_process (process_id : string) : M unit :=
  modify (fun s => set_running_processes (delete process_id (running_processes s)) s).

(** [f"process_{int(time.time())}_{hash(docker_command) % 10000}"] *)
Definition make_process_id (w : World) (docker_command : string) : string :=
  "process_" ++ of_int (time_now w) ++ "_"
  ++ of_int (str_hash w docker_command `mod` 10000).

(** [_execute_with_streaming] *)
Definition _execute_with_streaming (w : World) (docker_command : string)
    (timeout : Z) (background : bool) : M (bool * string) :=
  let process_id := make_process_id w docker_command in
  match stream_shell w docker_command with
  | SpawnFails msg => raise (Exception msg)
  | Spawned run =>
      log_event (EvSpawned docker_command) ;;
      modify (fun s =>
        set_running_processes
          (<[process_id := mkProcessInfo docker_command background timeout []]>
             (running_processes s)) s) ;;
      if background then
        log_event (EvCreateTask process_id) ;;
        ret (true, "Started background process " ++ process_id)
      else
        try_except_timeout
          (full_output <- wait_for_stream run process_id ;;
           remove_process process_id ;;
           modify (fun s => set_output_history (output_history s ++ [full_output]) s) ;;
           let success :=
             returncode_is_zero run && negb (_detect_error_in_output full_output) in
           _broadcast_terminal_update "output"
             [("command", docker_command); ("output", full_output);
              ("success", of_bool success)] ;;
           ret (success, full_output))
          (terminate_and_wait docker_command (term_response run) ;;
           rp <- gets running_processes ;;
           let output_so_far :=
             match rp !! process_id with
             | Some info => String.concat EmptyString (p_output info)
             | None => EmptyString
             end in
           remove_process process_id ;;
           let timeout_message :=
             "Command timed out after " ++ of_int timeout ++ " seconds" ++ nl
             ++ output_so_far in
           modify (fun s => set_output_history (output_history s ++ [timeout_message]) s) ;;
           _broadcast_terminal_update "error"
             [("command", docker_command); ("error", timeout_message);
              ("type", "timeout")] ;;
           ret (false, timeout_message))
  end.

(** [_monitor_background_process], run for a child whose behaviour is [run]. *)
Definition _monitor_background_process (run : StreamRun) (process_id : string) : M unit :=
  rp <- gets running_processes ;;
  match rp !! process_id with
  | None => ret tt
  | Some process_info =>
      let timeout := p_timeout process_info in
      try_finally
        (try_except
           (full_output <- wait_for_stream run process_id ;;
            let success :=
              returncode_is_zero run && negb (_detect_error_in_output full_output) in
            _broadcast_terminal_update "background_complete"
              [("command", p_command process_info); ("output", full_output);
               ("success", of_bool success); ("process_id", process_id)])
           (terminate_and_wait (p_command process_info) (term_response run) ;;
            let timeout_message :=
              "Background process timed out after " ++ of_int timeout ++ " seconds" in
            _broadcast_terminal_update "background_timeout"
              [("command", p_command process_info); ("error", timeout_message);
               ("process_id", process_id)])
           (fun e =>
            let error_message := "Error monitoring background process: " ++ e in
            _broadcast_terminal_update "background_error"
              [("command", p_command process_info); ("error", error_message);
               ("process_id", process_id)]))
        (remove_process process_id)
  end.

(** The existence probe built in [_handle_cd_command] and in
    [check_directory_exists]. *)
Definition dir_check_cmd (name dir_path : string) : string :=
  "docker exec " ++ name ++ " bash -c '[ -d " ++ dir_path ++ " ] && echo exists'".

(** [check_directory_exists] *)
Definition check_directory_exists (w : World) (dir_path : string) : M bool :=
  try_except
    (name <- gets terminal_container_name ;;
     let command := dir_check_cmd name dir_path in
     result <- _run_local_command w command None ;;
     ret (contains "exists" result))
    (ret false)
    (fun _ => ret false).

(** [_handle_cd_command] *)
Definition _handle_cd_command (w : World) (command : string) : M (bool * string) :=
  let target_dir := strip (drop 3 command) in
  if String.eqb target_dir ".." then
    modify (fun s => set_working_directory (PosixPath.dirname (working_directory s)) s) ;;
    wd <- gets working_directory ;;
    let output := "Changed directory to " ++ wd in
    _broadcast_terminal_update "output"
      [("command", command); ("output", output); ("success", of_bool true)] ;;
    ret (true, output)
  else if startswith "/" target_dir then
    modify (set_working_directory target_dir) ;;
    wd <- gets working_directory ;;
    let output := "Changed directory to " ++ wd in
    _broadcast_terminal_update "output"
      [("command", command); ("output", output); ("success", of_bool true)] ;;
    ret (true, output)
  else
    wd <- gets working_directory ;;
    name <- gets terminal_container_name ;;
    let new_dir := PosixPath.join wd target_dir in
    let check_cmd := dir_check_cmd name new_dir in
    result <- _run_local_command w check_cmd None ;;
    if contains "exists" result then
      modify (set_working_directory new_dir) ;;
      wd <- gets working_directory ;;
      let output := "Changed directory to " ++ wd in
      _broadcast_terminal_update "output"
        [("command", command); ("output", output); ("success", of_bool true)] ;;
      ret (true, output)
    else
      let output := "Directory not found: " ++ new_dir in
      _broadcast_terminal_update "output"
        [("command", command); ("output", output); ("success", of_bool false)] ;;
      ret (false, output).

(** The [while i < len(parts)] loop shared by the two install handlers:
    tokens of [keywords] are skipped, a token starting with "-" is skipped
    together with the next token unless that one starts with "-" too, and
    every other token is a package. *)
Fixpoint extract_packages (keywords : list string) (parts : list string) : list string :=
  match parts with
  | [] => []
  | p :: rest =>
      if mem p keywords then extract_packages keywords rest
      else if startswith "-" p then
        match rest with
        | q :: rest' =>
            if negb (startswith "-" q) then extract_packages keywords rest'
            else extract_packages keywords rest
        | [] => []
        end
      else p :: extract_packages keywords rest
  end.

Definition pip_keywords : list string := ["pip"; "pip3"; "install"].

(** [is_yarn = "yarn" in parts[0]] *)
Definition is_yarn (parts_0 : string) : bool := contains "yarn" parts_0.

(** [["npm", "yarn", install_cmd, "add"]] *)
Definition npm_keywords (parts_0 : string) : list string :=
  let install_cmd := if is_yarn parts_0 then "add" else "install" in
  ["npm"; "yarn"; install_cmd; "add"].

(** [[pkg for pkg in packages if pkg not in installed]] *)
Definition not_installed (installed : gset string) (packages : list string) : list string :=
  List.filter (fun pkg => bool_decide (pkg ∉ installed)) packages.

Definition already_installed_message (packages : list string) : string :=
  "All packages already installed: " ++ join ", " packages.

(** [_handle_pip_install] *)
Definition _handle_pip_install (w : World) (command : string) : M (bool * string) :=
  let parts := split command in
  if mem "-r" parts then
    docker_cmd <- _prepare_docker_command command None ;;
    timeout <- gets command_timeout ;;
    _execute_with_streaming w docker_cmd timeout false
  else
    let packages := extract_packages pip_keywords parts in
    installed <- gets installed_pip ;;
    let new_packages := not_installed installed packages in
    match new_packages with
    | [] =>
        let output := already_installed_message packages in
        _broadcast_terminal_update "output"
          [("command", command); ("output", output); ("success", of_bool true)] ;;
        ret (true, output)
    | _ =>
        let install_cmd := "pip install " ++ join " " new_packages in
        docker_cmd <- _prepare_docker_command install_cmd None ;;
        timeout <- gets command_timeout ;;
        r <- _execute_with_streaming w docker_cmd timeout false ;;
        let '(success, output) := r in
        (if success then
           modify (fun s => set_installed_pip (installed_pip s ∪ list_to_set new_packages) s)
         else ret tt) ;;
        ret (success, output)
    end.

(** [_handle_npm_install] *)
Definition _handle_npm_install (w : World) (command : string) : M (bool * string) :=
  let parts := split command in
  match parts with
  | [] => raise (Exception "list index out of range")
  | parts_0 :: _ =>
      let is_yarn := is_yarn parts_0 in
      let save_dev_flag := if is_yarn then "--dev" else "--save-dev" in
      let is_global := mem "-g" parts || mem "--global" parts in
      let is_dev := mem "--save-dev" parts || mem "-D" parts || mem save_dev_flag parts in
      if is_global then
        docker_cmd <- _prepare_docker_command command None ;;
        timeout <- gets command_timeout ;;
        _execute_with_streaming w docker_cmd timeout false
      else
        let packages := extract_packages (npm_keywords parts_0) parts in
        installed <- gets installed_npm ;;
        let new_packages := not_installed installed packages in
        match new_packages with
        | [] =>
            let output := already_installed_message packages in
            _broadcast_terminal_update "output"
              [("command", command); ("output", output); ("success", of_bool true)] ;;
            ret (true, output)
        | _ =>
            let install_cmd :=
              if is_yarn then
                "yarn add " ++ join " " new_packages ++ (if is_dev then " --dev" else EmptyString)
              else
                "npm install " ++ join " " new_packages
                ++ (if is_dev then " --save-dev" else EmptyString) in
            docker_cmd <- _prepare_docker_command install_cmd None ;;
            timeout <- gets command_timeout ;;
            r <- _execute_with_streaming w docker_cmd timeout false ;;
            let '(success, output) := r in
            (if success then
               modify (fun s => set_installed_npm (installed_npm s ∪ list_to_set new_packages) s)
             else ret tt) ;;
            ret (success, output)
        end
  end.

Definition is_cd (cleaned_command : string) : bool :=
  startswith "cd " cleaned_command.

Definition is_pip_install (cleaned_command : string) : bool :=
  startswith "pip install " cleaned_command || startswith "pip3 install " cleaned_command.

Definition is_npm_install (cleaned_command : string) : bool :=
  startswith "npm install " cleaned_command || startswith "yarn add " cleaned_command.

(** [if working_dir: self.working_directory = working_dir] *)
Definition store_working_dir (working_dir : option string) : M unit :=
  match working_dir with
  | Some d =>
      if negb (String.eqb d EmptyString) then modify (set_working_directory d) else ret tt
  | None => ret tt
  end.

(** The [try] block of [execute_command]. *)
Definition execute_command_body (w : World) (command : string) (timeout : option Z)
    (stream_output background : bool) (working_dir : option string) : M (bool * string) :=
  store_working_dir working_dir ;;
  modify (fun s => set_command_history (command_history s ++ [command]) s) ;;
  _broadcast_terminal_update "command" [("command", command)] ;;
  let cleaned_command := _clean_command command in
  if is_cd cleaned_command then _handle_cd_command w cleaned_command
  else if is_pip_install cleaned_command then _handle_pip_install w cleaned_command
  else if is_npm_install cleaned_command then _handle_npm_install w cleaned_command
  else
    docker_command <- _prepare_docker_command cleaned_command working_dir ;;
    default <- gets command_timeout ;;
    if stream_output then
      _execute_with_streaming w docker_command (or_int timeout default) background
    else
      output <- _run_local_command w docker_command (Some (or_int timeout default)) ;;
      modify (fun s => set_output_history (output_history s ++ [output]) s) ;;
      let success := negb (_detect_error_in_output output) in
      _broadcast_terminal_update "output"
        [("command", command); ("output", output); ("success", of_bool success)] ;;
      ret (success, output).

(** [execute_command] *)
Definition execute_command (w : World) (command : string) (timeout : option Z)
    (stream_output background : bool) (working_dir : option string) : M (bool * string) :=
  try_except
    (execute_command_body w command timeout stream_output background working_dir)
    (default <- gets command_timeout ;;
     let error_message :=
       "Command '" ++ command ++ "' timed out after "
       ++ of_int (or_int timeout default) ++ " seconds" in
     _broadcast_terminal_update "error"
       [("command", command); ("error", error_message); ("type", "timeout")] ;;
     ret (false, error_message))
    (fun e =>
     let error_message := "Error executing command '" ++ command ++ "': " ++ e in
     _broadcast_terminal_update "error"
       [("command", command); ("error", error_message); ("type", "exception")] ;;
     ret (false, error_message)).

(** The [try] block of [execute_interactive_command]; [inputs = None] is
    the default argument. *)
Definition execute_interactive_command_body (w : World) (command : string)
    (inputs : option (list string)) (timeout : option Z)
    (working_dir : option string) : M (bool * string) :=
  let inputs := match inputs with Some l => l | None => [] end in
  store_working_dir working_dir ;;
  modify (fun s => set_command_history (command_history s ++ [command]) s) ;;
  _broadcast_terminal_update "command" [("command", command)] ;;
  let input_string :=
    match inputs with
    | [] => EmptyString
    | _ => join "\n" inputs ++ "\n"
    end in
  wd <- gets working_directory ;;
  name <- gets terminal_container_name ;;
  default <- gets command_timeout ;;
  let cwd := or_str working_dir wd in
  let docker_command :=
    "echo -e '" ++ input_string ++ "' | docker exec -i -w " ++ cwd ++ " " ++ name
    ++ " bash -c '" ++ command ++ "'" in
  output <- _run_local_command w docker_command (Some (or_int timeout default)) ;;
  modify (fun s => set_output_history (output_history s ++ [output]) s) ;;
  let success := negb (_detect_error_in_output output) in
  _broadcast_terminal_update "output"
    [("command", command); ("output", output); ("success", of_bool success)] ;;
  ret (success, output).

(** [execute_interactive_command] *)
Definition execute_interactive_command (w : World) (command : string)
    (inputs : option (list string)) (timeout : option Z)
    (working_dir : option string) : M (bool * string) :=
  try_except
    (execute_interactive_command_body w command inputs timeout working_dir)
    (default <- gets command_timeout ;;
     let error_message :=
       "Interactive command '" ++ command ++ "' timed out after "
       ++ of_int (or_int timeout default) ++ " seconds" in
     _broadcast_terminal_update "error"
       [("command", command); ("error", error_message); ("type", "timeout")] ;;
     ret (false, error_message))
    (fun e =>
     let error_message := "Error executing interactive command '" ++ command ++ "': " ++ e in
     _broadcast_terminal_update "error"
       [("command", command); ("error", error_message); ("type", "exception")] ;;
     ret (false, error_message)).

(** [get_command_history], [get_output_history] *)
Definition get_command_history (s : TerminalManager) : list string := command_history s.
Definition get_output_history (s : TerminalManager) : list string := output_history s.

(** [get_running_processes]: the registry without the process handles. *)
Definition get_running_processes (s : TerminalManager) : gmap string ProcessInfo :=
  running_processes s.

(** ** Sessions *)

(** One call on the engine, or one scheduled run of a background monitor. *)
Inductive Op :=
| Execute (command : string) (timeout : option Z)
    (stream_output background : bool) (working_dir : option string)
| ExecuteInteractive (command : string) (inputs : option (list string))
    (timeout : option Z) (working_dir : option string)
| MonitorBackground (run : StreamRun) (process_id : string).

(** The manager after one operation performed in world [w]. *)
Definition step (w : World) (op : Op) (s : TerminalManager) : TerminalManager :=
  match op with
  | Execute command timeout stream_output background working_dir =>
      fst (execute_command w command timeout stream_output background working_dir s)
  | ExecuteInteractive command inputs timeout working_dir =>
      fst (execute_interactive_command w command inputs timeout working_dir s)
  | MonitorBackground run process_id =>
      fst (_monitor_background_process run process_id s)
  end.

(** A session: operations in call order, each with the world it meets. *)
Fixpoint run_ops (ops : list (World * Op)) (s : TerminalManager) : TerminalManager :=
  match ops with
  | [] => s
  | (w, op) :: ops' => run_ops ops' (step w op s)
  end.

(** The [working_dir] argument of an operation. *)
Definition op_working_dir (op : Op) : option string :=
  match op with
  | Execute _ _ _ _ working_dir => working_dir
  | ExecuteInteractive _ _ _ working_dir => working_dir
  | MonitorBackground _ _ => None
  end.

(** Whether [execute_command] hands the operation to [_handle_cd_command]. *)
Definition op_is_cd (op : Op) : bool :=
  match op with
  | Execute command _ _ _ _ => is_cd (_clean_command command)
  | _ => false
  end.

(** An absolute path: it starts with the separator. *)
Definition is_absolute (path : string) : bool := startswith "/" path.

(** The override of an operation is absent, empty (hence ignored) or absolute. *)
Definition override_ok (op : Op) : bool :=
  match op_working_dir op with
  | Some d => String.eqb d EmptyString || is_absolute d
  | None => true
  end.

(** The commands for which a child process was created, oldest first. *)
Definition spawned (s : TerminalManager) : list string :=
  omap (fun e => match e with EvSpawned c => Some c | _ => None end) (events s).

(** The commands whose child was sent [terminate()], oldest first. *)
Definition terminated (s : TerminalManager) : list string :=
  omap (fun e => match e with EvTerminate c => Some c | _ => None end) (events s).

(** The manager once [execute_command] has stored the override, appended
    the command to the history and announced it. *)
Definition entered (command : string) (working_dir : option string)
    (s : TerminalManager) : TerminalManager :=
  fst ((store_working_dir working_dir ;;
        modify (fun s => set_command_history (command_history s ++ [command]) s) ;;
        _broadcast_terminal_update "command" [("command", command)]) s).

(** The substring relation behind Python's [kw in output]. *)
Definition occurs_in (kw output : string) : Prop :=
  exists pre post, output = pre ++ kw ++ post.

(** A working directory on which [os.path.join] followed by
    [os.path.dirname] is the identity: no trailing separator, unless the
    path consists of separators only. *)
Definition no_trailing_sep (path : string) : bool :=
  negb (endswith_char PosixPath.sep path) || PosixPath.all_sep path.

(** The packages the pip handler reads off a cleaned command. *)
Definition pip_packages (cleaned_command : string) : list string :=
  extract_packages pip_keywords (split cleaned_command).

(** The packages the npm handler reads off a cleaned command. *)
Definition npm_packages (cleaned_command : string) : list string :=
  match split cleaned_command with
  | [] => []
  | parts_0 :: _ => extract_packages (npm_keywords parts_0) (split cleaned_command)
  end.

(** The cleaned command reaches the deduplicating part of the pip handler
    (no requirements file). *)
Definition pip_dedup (cleaned_command : string) : bool :=
  is_pip_install cleaned_command && negb (mem "-r" (split cleaned_command)).

(** The cleaned command reaches the deduplicating part of the npm handler
    (not a global install). *)
Definition npm_dedup (cleaned_command : string) : bool :=
  negb (is_pip_install cleaned_command) && is_npm_install cleaned_command
  && negb (mem "-g" (split cleaned_command) || mem "--global" (split cleaned_command)).



(** The cleaned command is none of the special cases of [execute_command]. *)
Definition is_plain (cleaned_command : string) : bool :=
  negb (is_cd cleaned_command) && negb (is_pip_install cleaned_command)
  && negb (is_npm_install cleaned_command).

(** The command line [execute_command] hands to the supervisor for a plain command. *)
Definition docker_command_of (s : TerminalManager) (command : string)
    (working_dir : option string) : string :=
  "docker exec -w " ++ or_str working_dir (working_directory s) ++ " "
  ++ terminal_container_name s ++ " bash -c '"
  ++ replace "'" "'\''" (_clean_command command) ++ "'".

(** ** Concrete worlds and managers used in the examples *)

Definition manager0 : TerminalManager := init "ai_agent_terminal" 300.

(** Every streamed command prints "hello" and exits with 0; every probe run
    through [_run_local_command] prints nothing and exits with 1. *)
Definition world_hello : World :=
  {| time_now := 1700000000;
     str_hash := fun _ => 4242;
     stream_shell := fun _ => Spawned (StreamCompletes ["hello"; nl] 0);
     local_shell := fun _ => Spawned (LocalCompletes EmptyString EmptyString 1) |}.

(** Every directory probe answers "exists". *)
Definition world_exists : World :=
  {| time_now := 1700000000;
     str_hash := fun _ => 4242;
     stream_shell := fun _ => Spawned (StreamCompletes ["hello"; nl] 0);
     local_shell := fun _ => Spawned (LocalCompletes ("exists" ++ nl) EmptyString 0) |}.

(** The child prints one line, outlives the timeout and exits on SIGTERM. *)
Definition world_slow : World :=
  {| time_now := 1700000000;
     str_hash := fun _ => 4242;
     stream_shell := fun _ => Spawned (StreamTimesOut ["tick"; nl] TermExits);
     local_shell := fun _ => Spawned (LocalOverruns TermExits) |}.

(** The child outlives the timeout and ignores SIGTERM. *)
Definition world_stubborn : World :=
  {| time_now := 1700000000;
     str_hash := fun _ => 4242;
     stream_shell := fun _ => Spawned (StreamTimesOut ["tick"; nl] TermIgnored);
     local_shell := fun _ => Spawned (LocalOverruns TermIgnored) |}.

(** The child exits with status 1 and prints nothing. *)
Definition world_exit1 : World :=
  {| time_now := 1700000000;
     str_hash := fun _ => 4242;
     stream_shell := fun _ => Spawned (StreamCompletes [] 1);
     local_shell := fun _ => Spawned (LocalCompletes EmptyString EmptyString 1) |}.

(** The child exits with status 0 after printing a Python traceback. *)
Definition world_traceback : World :=
  {| time_now := 1700000000;
     str_hash := fun _ => 4242;
     stream_shell := fun _ =>
       Spawned (StreamCompletes ["Traceback (most recent call last)"; nl] 0);
     local_shell := fun _ =>
       Spawned (LocalCompletes "Traceback (most recent call last)" EmptyString 0) |}.

(** A plain command called with a relative [working_dir] override. *)
Definition relative_override_op : Op :=
  Execute "ls" None true false (Some "tmp").

(** [cd ..] *)
Definition cd_up_op : Op := Execute "cd .." None true false None.

(** A session whose overrides are absent or absolute. *)
Definition session_absolute : list (World * Op) :=
  [ (world_exists, Execute "cd project" None true false None);
    (world_hello, Execute "ls -la" (Some 10) true false (Some "/tmp"));
    (world_hello, ExecuteInteractive "python3" (Some ["print(1)"]) None None);
    (world_hello, Execute "cd .." None true false None);
    (world_hello, MonitorBackground (StreamCompletes [] 0) "process_1_1") ].

(** [cd /workspace/] and [cd sub] *)
Definition cd_workspace_slash_op : Op := Execute "cd /workspace/" None true false None.
Definition cd_sub_op : Op := Execute "cd sub" None true false None.

(** [cd /workspace] and [echo hello], as issued by [initialize] and by a caller. *)
Definition cd_workspace_op : Op := Execute "cd /workspace" None true false None.
Definition echo_hello_op : Op := Execute "echo hello" None true false None.

(** ** Predicates on managers *)

(** [stable P m]: running [m] from a manager satisfying [P] leaves a
    manager satisfying [P], whatever the outcome. *)
Definition stable {A} (P : TerminalManager -> Prop) (m : M A) : Prop :=
  forall s, P s -> P (fst (m s)).

Definition wd_is (v : string) (s : TerminalManager) : Prop := working_directory s = v.

Definition wd_absolute (s : TerminalManager) : Prop :=
  is_absolute (working_directory s) = true.

(** Both installed sets are as given. *)
Definition installed_are (pip npm : gset string) (s : TerminalManager) : Prop :=
  installed_pip s = pip /\ installed_npm s = npm.



(** Both history logs extend the given ones. *)
Definition histories_extend (commands outputs : list string) (s : TerminalManager) : Prop :=
  commands `prefix_of` command_history s /\ outputs `prefix_of` output_history s.

(** ** The remaining methods of [TerminalManager] *)

(** The file probe built in [check_file_exists]. *)
Definition file_check_cmd (name file_path : string) : string :=
  "docker exec " ++ name ++ " bash -c '[ -f " ++ file_path ++ " ] && echo exists'".

(** [check_file_exists] *)
Definition check_file_exists (w : World) (file_path : string) : M bool :=
  try_except
    (name <- gets terminal_container_name ;;
     let command := file_check_cmd name file_path in
     result <- _run_local_command w command None ;;
     ret (contains "exists" result))
    (ret false)
    (fun _ => ret false).

(** [s.split(sep)] for a one-character separator: the pieces between the
    separators, empty ones included.  [cur] is the piece being read,
    reversed. *)
Fixpoint split_on_from (sep : ascii) (cur : string) (s : string) : list string :=
  match s with
  | EmptyString => [String.rev cur]
  | String c s' =>
      if Ascii.eqb c sep then String.rev cur :: split_on_from sep EmptyString s'
      else split_on_from sep (String c cur) s'
  end.

Definition split_on (sep : ascii) (s : string) : list string :=
  split_on_from sep EmptyString s.

(** [[line.strip() for line in result.split('\n') if line.strip()]] *)
Definition stripped_lines (result : string) : list string :=
  List.map strip
    (List.filter (fun line => negb (String.eqb (strip line) EmptyString))
       (split_on "010"%char result)).

(** [list_directory] *)
Definition list_directory (w : World) (dir_path : string) : M (list string) :=
  try_except
    (name <- gets terminal_container_name ;;
     let command := "docker exec " ++ name ++ " bash -c 'ls -1a " ++ dir_path ++ "'" in
     result <- _run_local_command w command None ;;
     let files := stripped_lines result in
     ret files)
    (ret [])
    (fun _ => ret []).


(** The command [write_file] runs to write the content: the f-string
    opens the content with quote, backslash, quote, quote and closes it
    with backslash, quote, quote. *)
Definition write_cmd (name file_path content : string) : string :=
  let escaped_content := replace "'" "'\''" content in
  "docker exec " ++ name ++ " bash -c 'echo -e '\''" ++ escaped_content
  ++ "\'' > " ++ file_path ++ "'".

(** [write_file] *)
Definition write_file (w : World) (file_path content : string) : M bool :=
  try_except
    (let dir_path := PosixPath.dirname file_path in
     (if negb (String.eqb dir_path EmptyString) then
        _ <- execute_command w ("mkdir -p " ++ dir_path) None true false None ;;
        ret tt
      else ret tt) ;;
     name <- gets terminal_container_name ;;
     let command := write_cmd name file_path content in
     _ <- _run_local_command w command None ;;
     check_file_exists w file_path)
    (ret false)
    (fun _ => ret false).



(** The loop of [shutdown] over [list(self.running_processes.items())];
    [response] tells what the child registered under an identifier does
    when terminated.  A failing [terminate()]/[wait()] is logged and the
    loop goes on. *)
Fixpoint terminate_all (response : string -> TermResponse)
    (items : list (string * ProcessInfo)) : M unit :=
  match items with
  | [] => ret tt
  | (process_id, process_info) :: items' =>
      terminate_and_wait (p_command process_info) (response process_id) ;;
      terminate_all response items'
  end.

(** [shutdown].  A Python dict is enumerated in insertion order, which the
    [gmap] does not record: the loop runs over the map's own enumeration. *)
Definition shutdown (response : string -> TermResponse) : M unit :=
  rp <- gets running_processes ;;
  terminate_all response (map_to_list rp) ;;
  modify (set_running_processes ∅).

(** [_install_basic_tools]: the [try/except] around each call only logs. *)
Fixpoint _install_basic_tools (w : World) (tools : list string) : M unit :=
  match tools with
  | [] => ret tt
  | tool :: tools' =>
      try_except
        (_ <- execute_command w ("apt-get install -y " ++ tool) None true false None ;;
         ret tt)
        (ret tt)
        (fun _ => ret tt) ;;
      _install_basic_tools w tools'
  end.

(** ** Callers of the engine *)

Module Utils.

(** [l[-n:]] for a positive [n]. *)
Definition last_n {A} (n : nat) (l : list A) : list A :=
  List.skipn (length l - n) l.

(** The "history" entry built by [get_status] (utils.py): the last ten
    commands paired by index with the last ten outputs, up to the shorter
    of the two. *)
Definition terminal_history (s : TerminalManager) : list (string * string) :=
  let command_history :=
    match get_command_history s with [] => [] | h => last_n 10 h end in
  let output_history :=
    match get_output_history s with [] => [] | h => last_n 10 h end in
  List.combine command_history output_history.

End Utils.

Module CodeTester.

(** [CodeTester._run_test_setup] (code_tester.py); the surrounding
    [try/except] only logs. *)
Definition _run_test_setup (w : World) (language directory : string) : M unit :=
  try_except
    (if String.eqb language "python" then
       r <- execute_command w "pip list | grep pytest" None true false (Some directory) ;;
       let '(_, output) := r in
       if negb (contains "pytest" output) then
         _ <- execute_command w "pip install pytest" None true false (Some directory) ;;
         ret tt
       else ret tt
     else if mem language ["javascript"; "typescript"] then
       package_json_exists <-
         check_file_exists w (PosixPath.join directory "package.json") ;;
       (if negb package_json_exists then
          _ <- execute_command w "npm init -y" None true false (Some directory) ;;
          ret tt
        else ret tt) ;;
       node_modules_exists <-
         check_directory_exists w (PosixPath.join directory "node_modules") ;;
       if negb node_modules_exists then
         if String.eqb language "typescript" then
           _ <- execute_command w
                  "npm install --save-dev jest ts-jest @types/jest typescript"
                  None true false (Some directory) ;;
           ret tt
         else
           _ <- execute_command w "npm install --save-dev jest"
                  None true false (Some directory) ;;
           ret tt
       else ret tt
     else ret tt)
    (ret tt)
    (fun _ => ret tt).

End CodeTester.

(** ** Further predicates on managers *)

(** [P] does not look at the event log. *)
Definition ignores_events (P : TerminalManager -> Prop) : Prop :=
  forall s ev, P s -> P (set_events ev s).

(** The command log is as given. *)
Definition commands_are (v : list string) (s : TerminalManager) : Prop :=
  command_history s = v.

(** The output log is the given one, possibly with one more entry. *)
Definition outputs_at_most_one_more (v : list string) (s : TerminalManager) : Prop :=
  output_history s = v \/ exists o, output_history s = (v ++ [o])%list.

(** The registry is as given. *)
Definition registry_is (v : gmap string ProcessInfo) (s : TerminalManager) : Prop :=
  running_processes s = v.

(** Each installed set lies between the given bounds. *)
Definition installed_between (lo_pip hi_pip lo_npm hi_npm : gset string)
    (s : TerminalManager) : Prop :=
  (lo_pip ⊆ installed_pip s /\ installed_pip s ⊆ hi_pip) /\
  (lo_npm ⊆ installed_npm s /\ installed_npm s ⊆ hi_npm).

(** No output log entry without a command log entry. *)
Definition outputs_within_commands (s : TerminalManager) : Prop :=
  (length (output_history s) <= length (command_history s))%nat.

(** The child registered under an identifier exits when terminated. *)
Definition all_exit (response : string -> TermResponse) (rp : gmap string ProcessInfo) : Prop :=
  forall process_id, is_Some (rp !! process_id) -> response process_id <> TermIgnored.

(** ** Further concrete worlds *)

(** No child can be created. *)
Definition world_no_docker : World :=
  {| time_now := 1700000000;
     str_hash := fun _ => 4242;
     stream_shell := fun _ => SpawnFails "docker: not found";
     local_shell := fun _ => SpawnFails "docker: not found" |}.

(** Reading the child's output fails after one chunk. *)
Definition world_broken_pipe : World :=
  {| time_now := 1700000000;
     str_hash := fun _ => 4242;
     stream_shell := fun _ => Spawned (StreamRaises ["cc -c a.c"] "Broken pipe");
     local_shell := fun _ => SpawnFails "Broken pipe" |}.

(** The child prints "done" and exits with status 3. *)
Definition world_exit3 : World :=
  {| time_now := 1700000000;
     str_hash := fun _ => 4242;
     stream_shell := fun _ => Spawned (StreamCompletes ["done"; nl] 3);
     local_shell := fun _ => Spawned (LocalCompletes ("done" ++ nl) EmptyString 3) |}.

(** ** Shapes of strings *)

(** Every whitespace character of the string is a space, and no two spaces
    are adjacent; [after_space] tells whether a space precedes the string. *)
Fixpoint single_spaced (after_space : bool) (s : string) : bool :=
  match s with
  | EmptyString => true
  | String c s' =>
      if is_space c
      then Ascii.eqb c " "%char && negb after_space && single_spaced true s'
      else single_spaced false s'
  end.

(** A manager with two background children registered. *)
Definition manager_two_children : TerminalManager :=
  set_running_processes
    (<["process_1_1" := mkProcessInfo "docker exec server" true 300 []]>
       (<["process_2_2" := mkProcessInfo "docker exec worker" true 300 []]> ∅))
    manager0.

(** [ls -1a] prints four names and a blank line. *)
Definition world_listing : World :=
  {| time_now := 1700000000;
     str_hash := fun _ => 4242;
     stream_shell := fun _ => Spawned (StreamCompletes [] 0);
     local_shell := fun _ =>
       Spawned (LocalCompletes
                  ("." ++ nl ++ ".." ++ nl ++ "  src " ++ nl ++ nl ++ "README.md" ++ nl)
                  EmptyString 0) |}.

(** The manager after two plain commands. *)
Definition manager_after_two : TerminalManager :=
  run_ops [(world_hello, Execute "echo hello" None true false None);
           (world_hello, Execute "ls" None true false None)] manager0.

(** A project with a package.json and no node_modules: the file probe
    answers "exists", every other probe answers nothing. *)
Definition world_fresh_project : World :=
  {| time_now := 1700000000;
     str_hash := fun _ => 4242;
     stream_shell := fun _ => Spawned (StreamCompletes [] 1);
     local_shell := fun c =>
       if contains "[ -f " c
       then Spawned (LocalCompletes ("exists" ++ nl) EmptyString 0)
       else Spawned (LocalCompletes EmptyString EmptyString 1) |}.

(** * Properties *)

(** ** The string and path operations on concrete inputs *)

Example strip_ex : PyStr.strip "  cd   a b  " = "cd   a b".
Proof. reflexivity. Qed.

Example replace_ex : PyStr.replace "'" "'\''" "echo 'a'" = "echo '\''a'\''".
Proof. reflexivity. Qed.

Example split_ex : PyStr.split "pip install  -U requests" = ["pip"; "install"; "-U"; "requests"].
Proof. reflexivity. Qed.

Example dirname_ex1 : PosixPath.dirname "/workspace/sub" = "/workspace".
Proof. reflexivity. Qed.

Example dirname_ex2 : PosixPath.dirname "/workspace" = "/".
Proof. reflexivity. Qed.

Example dirname_ex3 : PosixPath.dirname "rel" = EmptyString.
Proof. reflexivity. Qed.

Example join_ex : PosixPath.join "/workspace/" "sub" = "/workspace/sub".
Proof. reflexivity. Qed.

Example of_int_ex : PyStr.of_int 300 = "300".
Proof. reflexivity. Qed.

Example clean_command_ex :
  _clean_command ("  pip   install " ++ backslash_nl ++ " flask ") = "pip install flask".
Proof. reflexivity. Qed.

Example prepare_docker_command_ex :
  snd (_prepare_docker_command "echo 'a'" None manager0)
  = Ret "docker exec -w /workspace ai_agent_terminal bash -c 'echo '\''a'\'''".
Proof. reflexivity. Qed.

Example execute_echo_ex :
  snd (execute_command world_hello "echo hello" None true false None manager0)
  = Ret (true, "hello" ++ nl).
Proof. vm_compute. reflexivity. Qed.

(** ** Strings *)

Section StringFacts.

Lemma startswith_app (p t : string) : startswith p (p ++ t) = true.
Proof.
  induction p as [|a p IH]; simpl; [reflexivity|].
  rewrite Ascii.eqb_refl. exact IH.
Qed.

Lemma startswith_inv (p s : string) :
  startswith p s = true -> exists t, s = p ++ t.
Proof.
  revert s. induction p as [|a p IH]; intros s H; simpl in *.
  - exists s. reflexivity.
  - destruct s as [|b s]; [discriminate|].
    apply andb_true_iff in H as [Hab Hps].
    apply Ascii.eqb_eq in Hab. subst b.
    destruct (IH _ Hps) as [t ->]. exists t. reflexivity.
Qed.

Lemma startswith_spec (p s : string) :
  startswith p s = true <-> exists t, s = p ++ t.
Proof.
  split; [apply startswith_inv|]. intros [t ->]. apply startswith_app.
Qed.

Lemma contains_spec (p s : string) :
  contains p s = true <-> occurs_in p s.
Proof.
  unfold occurs_in. induction s as [|c s IH]; simpl.
  - rewrite orb_false_r, startswith_spec. split.
    + intros [t Ht]. exists EmptyString, t. exact Ht.
    + intros [pre [post H]]. destruct pre; [|discriminate]. eauto.
  - rewrite orb_true_iff, startswith_spec, IH. split.
    + intros [[t Ht]|[pre [post Ht]]].
      * exists EmptyString, t. exact Ht.
      * exists (String c pre), post. rewrite Ht. reflexivity.
    + intros [pre [post H]]. destruct pre as [|c' pre]; simpl in H.
      * left. eauto.
      * right. change (String c' pre ++ p ++ post) with (String c' (pre ++ p ++ post)) in H.
        injection H as _ H. eauto.
Qed.

Lemma append_empty_r (s : string) : s ++ EmptyString = s.
Proof.
  induction s as [|c s IH]; [reflexivity|].
  change (String c s ++ EmptyString) with (String c (s ++ EmptyString)).
  rewrite IH. reflexivity.
Qed.

Lemma contains_false_startswith (p s : string) :
  contains p s = false -> startswith p s = false.
Proof. destruct s; simpl; intros H; apply orb_false_iff in H; tauto. Qed.

End StringFacts.

(** ** The output classifier *)

(** The classifier flags an output exactly when one of its fourteen
    keywords occurs in it. *)
Lemma detect_error_spec (output : string) :
  _detect_error_in_output output = true <->
  exists kw, In kw error_keywords /\ occurs_in kw output.
Proof.
  unfold _detect_error_in_output. rewrite existsb_exists.
  split; intros [kw [Hin H]]; exists kw; split; auto; now apply contains_spec.
Qed.

(** ** Reasoning about coroutines *)

Section Stable.
Context (P : TerminalManager -> Prop).

Lemma stable_ret {A} (a : A) : stable P (ret a).
Proof. intros s H. exact H. Qed.

Lemma stable_raise {A} (e : Exn) : stable P (@raise A e).
Proof. intros s H. exact H. Qed.

Lemma stable_hang {A} : stable P (@hang A).
Proof. intros s H. exact H. Qed.

Lemma stable_gets {A} (f : TerminalManager -> A) : stable P (gets f).
Proof. intros s H. exact H. Qed.

Lemma stable_modify (f : TerminalManager -> TerminalManager) :
  (forall s, P s -> P (f s)) -> stable P (modify f).
Proof. intros Hf s H. apply Hf, H. Qed.

Lemma stable_bind {A B} (m : M A) (k : A -> M B) :
  stable P m -> (forall a, stable P (k a)) -> stable P (bind m k).
Proof.
  intros Hm Hk s H. unfold bind. specialize (Hm s H).
  destruct (m s) as [s' [a|e|]]; simpl in *; auto. apply Hk, Hm.
Qed.

Lemma stable_try_except {A} (body on_timeout : M A) (on_exc : string -> M A) :
  stable P body -> stable P on_timeout -> (forall e, stable P (on_exc e)) ->
  stable P (try_except body on_timeout on_exc).
Proof.
  intros Hb Ht He s H. unfold try_except. specialize (Hb s H).
  destruct (body s) as [s' [a|[|msg]|]]; simpl in *; auto;
    first [apply Ht, Hb | apply He, Hb].
Qed.

Lemma stable_try_except_timeout {A} (body on_timeout : M A) :
  stable P body -> stable P on_timeout ->
  stable P (try_except_timeout body on_timeout).
Proof.
  intros Hb Ht s H. unfold try_except_timeout. specialize (Hb s H).
  destruct (body s) as [s' [a|[|msg]|]]; simpl in *; auto; apply Ht, Hb.
Qed.

Lemma stable_try_finally {A} (body : M A) (cleanup : M unit) :
  stable P body -> stable P cleanup -> stable P (try_finally body cleanup).
Proof.
  intros Hb Hc s H. unfold try_finally. specialize (Hb s H).
  destruct (body s) as [s' [a|e|]]; simpl in *; auto;
    specialize (Hc s' Hb); destruct (cleanup s') as [s'' [u|e'|]]; simpl in *; auto.
Qed.

End Stable.

(** Breaks a coroutine into its primitive steps; what is left are the
    obligations of the [modify] steps. *)
Ltac stable_step :=
  lazymatch goal with
  | |- stable _ (bind _ _) => apply stable_bind; [|intros ?]
  | |- stable _ (ret _) => apply stable_ret
  | |- stable _ (raise _) => apply stable_raise
  | |- stable _ hang => apply stable_hang
  | |- stable _ (gets _) => apply stable_gets
  | |- stable _ (modify _) => apply stable_modify
  | |- stable _ (try_except _ _ _) => apply stable_try_except; [| |intros ?]
  | |- stable _ (try_except_timeout _ _) => apply stable_try_except_timeout
  | |- stable _ (try_finally _ _) => apply stable_try_finally
  | |- stable _ (log_event _) => unfold log_event
  | |- stable _ (_broadcast_terminal_update _ _) => unfold _broadcast_terminal_update
  | |- stable _ (terminate_and_wait _ _) => unfold terminate_and_wait
  | |- stable _ (append_output _ _) => unfold append_output
  | |- stable _ (remove_process _) => unfold remove_process
  | |- stable _ (store_working_dir _) => unfold store_working_dir
  | |- stable _ (_prepare_docker_command _ _) => unfold _prepare_docker_command
  | |- stable _ (wait_for_stream _ _) => unfold wait_for_stream
  | |- stable _ (_run_local_command _ _ _) => unfold _run_local_command
  | |- stable _ (_execute_with_streaming _ _ _ _) => unfold _execute_with_streaming
  | |- stable _ (let '(_, _) := ?p in _) => destruct p
  | |- stable _ (match ?x with _ => _ end) => destruct x
  end.

Ltac stable_steps := repeat stable_step.

Ltac stable_auto :=
  stable_steps; try (intros; simpl in *; auto; fail).

(** ** Paths *)

#[local] Arguments Ascii.eqb : simpl never.
#[local] Arguments drop : simpl never.
#[local] Arguments strip : simpl never.

Section PathFacts.
Import PosixPath.

Lemma append_cons (c : ascii) (s t : string) : String c s ++ t = String c (s ++ t).
Proof. reflexivity. Qed.

Lemma append_empty_l (t : string) : EmptyString ++ t = t.
Proof. reflexivity. Qed.

Lemma rstrip_char_nonempty (h : string) :
  all_sep h = false -> rstrip_char sep h <> EmptyString.
Proof.
  induction h as [|c h IH]; simpl; [discriminate|].
  intros H. destruct (rstrip_char sep h) eqn:E; [|discriminate].
  destruct (Ascii.eqb c sep) eqn:Ec; [|discriminate].
  simpl in H. apply IH in H. congruence.
Qed.

Lemma absolute_inv (p : string) :
  is_absolute p = true -> exists p', p = String sep p'.
Proof.
  unfold is_absolute. destruct p as [|c p]; [discriminate|]. simpl.
  rewrite andb_true_r. intros H. apply Ascii.eqb_eq in H. subst c. eauto.
Qed.

Lemma dirname_absolute (p : string) :
  is_absolute p = true -> is_absolute (dirname p) = true.
Proof.
  intros H. apply absolute_inv in H as [p' ->]. unfold dirname.
  assert (Hh : exists h, head_of (String sep p') = String sep h).
  { simpl. destruct (head_of p'); eauto. }
  destruct Hh as [h Hh]. rewrite Hh.
  change (all_sep (String sep h)) with (all_sep h).
  change (String.eqb (String sep h) EmptyString) with false.
  destruct (all_sep h) eqn:Ea; [reflexivity|].
  pose proof (rstrip_char_nonempty h Ea) as Hne.
  change (negb false && negb false)%bool with true. cbv iota.
  simpl. destruct (rstrip_char sep h); [congruence|reflexivity].
Qed.

Lemma join_absolute (a b : string) :
  is_absolute a = true -> is_absolute (join a b) = true.
Proof.
  unfold is_absolute, join. intros Ha.
  destruct (startswith "/" b) eqn:Hb; [exact Hb|].
  apply absolute_inv in Ha as [a' ->].
  destruct (_ || _)%bool; reflexivity.
Qed.

Lemma absolute_nonempty (p : string) : is_absolute p = true -> p <> EmptyString.
Proof. intros H ->. discriminate. Qed.

End PathFacts.

(** ** The working directory *)

Section WorkingDirectory.


Lemma streaming_keeps_wd w c t b v : stable (wd_is v) (_execute_with_streaming w c t b).
Proof. unfold wd_is. stable_auto. Qed.

Lemma local_keeps_wd w c t v : stable (wd_is v) (_run_local_command w c t).
Proof. unfold wd_is. stable_auto. Qed.

Lemma pip_keeps_wd w c v : stable (wd_is v) (_handle_pip_install w c).
Proof.
  unfold _handle_pip_install.
  destruct (mem "-r" (split c));
    stable_steps; try apply streaming_keeps_wd; unfold wd_is; stable_auto.
Qed.

Lemma npm_keeps_wd w c v : stable (wd_is v) (_handle_npm_install w c).
Proof.
  unfold _handle_npm_install.
  destruct (split c) as [|p0 ps]; [apply stable_raise|].
  destruct (_ || _)%bool;
    stable_steps; try apply streaming_keeps_wd; unfold wd_is; stable_auto.
Qed.

Lemma monitor_keeps_wd run pid v : stable (wd_is v) (_monitor_background_process run pid).
Proof. unfold _monitor_background_process, wd_is. stable_auto. Qed.

Lemma stable_wd_absolute {A} (m : M A) :
  (forall v, stable (wd_is v) m) -> stable wd_absolute m.
Proof.
  intros H s Hs. unfold wd_absolute. rewrite (H (working_directory s) s); auto.
  reflexivity.
Qed.

Lemma cd_keeps_absolute w c : stable wd_absolute (_handle_cd_command w c).
Proof.
  unfold _handle_cd_command, wd_absolute.
  destruct (String.eqb _ ".."); [|destruct (startswith "/" _) eqn:Habs].
  - stable_steps; intros; simpl in *; auto using dirname_absolute.
  - stable_steps; intros; simpl in *; auto.
  - intros s Hs. unfold bind at 1 2, gets at 1 2. unfold bind at 1.
    match goal with
    | |- context [_run_local_command w ?cmd None s] =>
        pose proof (local_keeps_wd w cmd None _ s eq_refl) as Hk;
        destruct (_run_local_command w cmd None s) as [s1 o]
    end.
    unfold wd_is in Hk. simpl in Hk.
    destruct o as [result| |]; simpl; try (rewrite Hk; exact Hs).
    destruct (contains "exists" result); simpl; [|rewrite Hk; exact Hs].
    apply join_absolute, Hs.
Qed.

Lemma store_keeps_absolute working_dir :
  match working_dir with
  | Some d => (String.eqb d EmptyString || is_absolute d)%bool = true
  | None => True
  end ->
  stable wd_absolute (store_working_dir working_dir).
Proof.
  unfold store_working_dir, wd_absolute. intros H.
  destruct working_dir as [d|]; [|stable_auto].
  destruct (String.eqb d EmptyString); simpl in *; stable_auto.
Qed.

Lemma execute_keeps_absolute w command timeout so bg working_dir :
  override_ok (Execute command timeout so bg working_dir) = true ->
  stable wd_absolute (execute_command w command timeout so bg working_dir).
Proof.
  intros Hok. unfold execute_command, execute_command_body.
  apply stable_try_except; [| |intros e].
  - apply stable_bind; [|intros _].
    { apply store_keeps_absolute. unfold override_ok in Hok. simpl in Hok.
      destruct working_dir; auto. }
    apply stable_bind; [unfold wd_absolute; stable_auto|intros _].
    apply stable_bind; [unfold wd_absolute; stable_auto|intros _].
    destruct (is_cd _); [apply cd_keeps_absolute|].
    apply stable_wd_absolute. intros v.
    destruct (is_pip_install _); [apply pip_keeps_wd|].
    destruct (is_npm_install _); [apply npm_keeps_wd|].
    destruct so; stable_steps;
      first [apply streaming_keeps_wd | apply local_keeps_wd | unfold wd_is; stable_auto].
  - unfold wd_absolute; stable_auto.
  - unfold wd_absolute; stable_auto.
Qed.

Lemma interactive_keeps_absolute w command inputs timeout working_dir :
  override_ok (ExecuteInteractive command inputs timeout working_dir) = true ->
  stable wd_absolute (execute_interactive_command w command inputs timeout working_dir).
Proof.
  intros Hok. unfold execute_interactive_command, execute_interactive_command_body.
  apply stable_try_except; [| |intros e].
  - apply stable_bind; [|intros _].
    { apply store_keeps_absolute. unfold override_ok in Hok. simpl in Hok.
      destruct working_dir; auto. }
    apply stable_wd_absolute. intros v.
    stable_steps; first [apply local_keeps_wd | unfold wd_is; stable_auto].
  - unfold wd_absolute; stable_auto.
  - unfold wd_absolute; stable_auto.
Qed.

Lemma step_keeps_absolute w op s :
  override_ok op = true -> wd_absolute s -> wd_absolute (step w op s).
Proof.
  intros Hok Hs. destruct op; simpl.
  - now apply execute_keeps_absolute.
  - now apply interactive_keeps_absolute.
  - apply (stable_wd_absolute _ (monitor_keeps_wd run process_id)), Hs.
Qed.

(** Without an override, an operation that is not handed to the
    directory-change handler leaves the working directory alone. *)
Lemma step_keeps_wd w op s :
  op_working_dir op = None -> op_is_cd op = false ->
  working_directory (step w op s) = working_directory s.
Proof.
  intros Hwd Hcd. destruct op; simpl in *; subst.
  - unfold execute_command, execute_command_body. rewrite Hcd.
    apply (stable_try_except (wd_is (working_directory s))); [| |intros e| reflexivity];
      [|unfold wd_is; stable_auto|unfold wd_is; stable_auto].
    apply stable_bind; [unfold wd_is; stable_auto|intros _].
    apply stable_bind; [unfold wd_is; stable_auto|intros _].
    apply stable_bind; [unfold wd_is; stable_auto|intros _].
    destruct (is_pip_install _); [apply pip_keeps_wd|].
    destruct (is_npm_install _); [apply npm_keeps_wd|].
    destruct stream_output; stable_steps;
      first [apply streaming_keeps_wd | apply local_keeps_wd | unfold wd_is; stable_auto].
  - unfold execute_interactive_command, execute_interactive_command_body.
    apply (stable_try_except (wd_is (working_directory s))); [| |intros e| reflexivity];
      [|unfold wd_is; stable_auto|unfold wd_is; stable_auto].
    stable_steps; first [apply local_keeps_wd | unfold wd_is; stable_auto].
  - apply (monitor_keeps_wd run process_id (working_directory s) s eq_refl).
Qed.

End WorkingDirectory.

(** C5 (amended): the working directory is written by the directory-change
    handler and by the [working_dir] override of [execute_command] and
    [execute_interactive_command], and by nothing else; along every session
    whose overrides are absent, empty or absolute paths, it stays a
    non-empty absolute path. *)
Theorem working_directory_stays_absolute
    (ops : list (World * Op)) (s : TerminalManager) :
  Forall (fun wo => override_ok (snd wo) = true) ops ->
  is_absolute (working_directory s) = true ->
  is_absolute (working_directory (run_ops ops s)) = true /\
  working_directory (run_ops ops s) <> EmptyString /\
  (forall w op s',
      op_working_dir op = None -> op_is_cd op = false ->
      working_directory (step w op s') = working_directory s').
Proof.
  intros Hops Hs.
  assert (Habs : is_absolute (working_directory (run_ops ops s)) = true).
  { revert s Hs. induction Hops as [|[w op] ops Hok _ IH]; intros s Hs; simpl.
    - exact Hs.
    - apply IH. now apply step_keeps_absolute. }
  split; [exact Habs|]. split; [now apply absolute_nonempty|].
  intros w op s'. apply step_keeps_wd.
Qed.

(** A session of a directory change, an overridden plain command, an
    interactive command and a monitor run keeps the path absolute. *)
Lemma working_directory_stays_absolute_witness :
  is_absolute (working_directory (run_ops session_absolute manager0)) = true /\
  working_directory (run_ops session_absolute manager0) <> EmptyString /\
  (forall w op s',
      op_working_dir op = None -> op_is_cd op = false ->
      working_directory (step w op s') = working_directory s').
Proof.
  apply (working_directory_stays_absolute session_absolute manager0).
  - repeat constructor.
  - reflexivity.
Defined.

(** C5, as stated, fails: a plain [ls] called with [working_dir="tmp"]
    writes the working directory outside directory-change handling and
    leaves a relative path; a following [cd ..] leaves the empty string. *)
Lemma override_breaks_working_directory :
  op_is_cd relative_override_op = false /\
  working_directory (step world_hello relative_override_op manager0) = "tmp" /\
  is_absolute (working_directory (step world_hello relative_override_op manager0)) = false /\
  working_directory
    (run_ops [(world_hello, relative_override_op); (world_hello, cd_up_op)] manager0)
  = EmptyString.
Proof. vm_compute. repeat split; reflexivity. Qed.

(** C2 (amended): the classifier is a function of the output alone and
    returns [true] exactly when the output contains one of the fourteen
    listed substrings; the generic prefixes are listed in three spellings
    each (lower case, capitalised, upper case) and matched exactly. *)
Theorem classifier_flags_listed_substrings (output : string) :
  _detect_error_in_output output = true <->
  exists kw,
    In kw [ "error:"; "Error:"; "ERROR:";
            "exception:"; "Exception:"; "EXCEPTION:";
            "failed:"; "Failed:"; "FAILED:";
            "command not found"; "No such file or directory";
            "Permission denied"; "fatal:";
            "Traceback (most recent call last)" ] /\
    occurs_in kw output.
Proof. apply detect_error_spec. Qed.

(** C2, as stated, fails: a mixed-case spelling is not flagged. *)
Lemma classifier_misses_mixed_case :
  _detect_error_in_output "eRRor: disk full" = false.
Proof. reflexivity. Qed.

(** ** The process supervisor *)

#[local] Arguments _detect_error_in_output : simpl never.
#[local] Arguments of_int : simpl never.
#[local] Arguments make_process_id : simpl never.
#[local] Arguments String.concat : simpl never.

Ltac run_monad :=
  unfold bind, ret, raise, hang, gets, modify, log_event,
    _broadcast_terminal_update, terminate_and_wait, append_output,
    remove_process, try_except_timeout, try_except, try_finally; simpl.

Lemma spawned_app_events (s : TerminalManager) (l : list Event) (s' : TerminalManager) :
  events s' = (events s ++ l)%list ->
  spawned s' = (spawned s ++ omap (fun e => match e with EvSpawned c => Some c | _ => None end) l)%list.
Proof. unfold spawned. intros ->. apply omap_app. Qed.

Lemma terminated_app_events (s : TerminalManager) (l : list Event) (s' : TerminalManager) :
  events s' = (events s ++ l)%list ->
  terminated s' = (terminated s ++ omap (fun e => match e with EvTerminate c => Some c | _ => None end) l)%list.
Proof. unfold terminated. intros ->. apply omap_app. Qed.

(** What the supervisor does with a foreground child that runs to
    completion. *)
Lemma streaming_completes w s docker_command timeout chunks rc :
  stream_shell w docker_command = Spawned (StreamCompletes chunks rc) ->
  let output := String.concat EmptyString chunks in
  let success := (rc =? 0) && negb (_detect_error_in_output output) in
  exists s',
    _execute_with_streaming w docker_command timeout false s = (s', Ret (success, output)) /\
    running_processes s' = delete (make_process_id w docker_command) (running_processes s) /\
    output_history s' = (output_history s ++ [output])%list /\
    command_history s' = command_history s /\
    installed_pip s' = installed_pip s /\ installed_npm s' = installed_npm s /\
    working_directory s' = working_directory s /\
    spawned s' = (spawned s ++ [docker_command])%list /\
    terminated s' = terminated s.
Proof.
  intros H output success. unfold _execute_with_streaming. rewrite H.
  unfold wait_for_stream. run_monad. rewrite lookup_insert_eq. simpl.
  eexists. split; [reflexivity|]. simpl.
  repeat split.
  - rewrite delete_alter_eq, delete_insert_eq. reflexivity.
  - unfold spawned. simpl. rewrite !omap_app. simpl. rewrite app_nil_r. reflexivity.
  - unfold terminated. simpl. rewrite !omap_app. simpl. rewrite !app_nil_r. reflexivity.
Qed.

(** What the supervisor does with a foreground child that outlives the
    timeout and does not survive [terminate()]. *)
Lemma streaming_times_out w s docker_command timeout chunks r :
  stream_shell w docker_command = Spawned (StreamTimesOut chunks r) ->
  r <> TermIgnored ->
  let message :=
    "Command timed out after " ++ of_int timeout ++ " seconds" ++ nl
    ++ String.concat EmptyString chunks in
  exists s',
    _execute_with_streaming w docker_command timeout false s = (s', Ret (false, message)) /\
    running_processes s' = delete (make_process_id w docker_command) (running_processes s) /\
    output_history s' = (output_history s ++ [message])%list /\
    spawned s' = (spawned s ++ [docker_command])%list /\
    terminated s' = (terminated s ++ [docker_command])%list.
Proof.
  intros H Hr message. unfold _execute_with_streaming. rewrite H.
  unfold wait_for_stream.
  destruct r; [| |congruence]; run_monad; rewrite lookup_insert_eq; simpl;
    rewrite lookup_alter_eq, lookup_insert_eq; simpl;
    (eexists; split; [reflexivity|]; simpl; repeat split;
     [ rewrite delete_alter_eq, delete_insert_eq; reflexivity
     | unfold spawned; simpl; rewrite !omap_app; simpl; rewrite !app_nil_r; reflexivity
     | unfold terminated; simpl; rewrite !omap_app; simpl; rewrite !app_nil_r;
       reflexivity ]).
Qed.

(** A foreground child that ignores [terminate()] keeps the supervisor
    waiting for ever. *)
Lemma streaming_hangs w s docker_command timeout chunks :
  stream_shell w docker_command = Spawned (StreamTimesOut chunks TermIgnored) ->
  snd (_execute_with_streaming w docker_command timeout false s) = Hang.
Proof.
  intros H. unfold _execute_with_streaming. rewrite H.
  unfold wait_for_stream. run_monad. rewrite lookup_insert_eq. reflexivity.
Qed.

(** What the supervisor does with a background child. *)
Lemma streaming_background w s docker_command timeout run :
  stream_shell w docker_command = Spawned run ->
  let process_id := make_process_id w docker_command in
  exists s',
    _execute_with_streaming w docker_command timeout true s
    = (s', Ret (true, "Started background process " ++ process_id)) /\
    running_processes s' =
      <[process_id := mkProcessInfo docker_command true timeout []]> (running_processes s) /\
    events s' = (events s ++ [EvSpawned docker_command; EvCreateTask process_id])%list /\
    output_history s' = output_history s /\
    command_history s' = command_history s /\
    working_directory s' = working_directory s.
Proof.
  intros H process_id. unfold _execute_with_streaming. rewrite H. run_monad.
  eexists. split; [reflexivity|]. simpl. rewrite <- app_assoc. repeat split.
Qed.

(** The monitor removes the entry whenever it comes to an end. *)
Lemma monitor_removes run process_id s :
  term_response run <> TermIgnored ->
  exists s',
    _monitor_background_process run process_id s = (s', Ret tt) /\
    running_processes s' = delete process_id (running_processes s).
Proof.
  intros Hr. unfold _monitor_background_process.
  unfold bind at 1, gets at 1.
  destruct (running_processes s !! process_id) as [info|] eqn:E.
  - unfold try_finally, try_except, wait_for_stream.
    unfold bind at 1 2, gets at 1. rewrite E.
    destruct run as [chunks rc|chunks r|chunks msg];
      [| simpl in Hr; destruct r; [| |congruence] |];
      run_monad; (eexists; split; [reflexivity|]; apply delete_alter_eq).
  - exists s. split; [reflexivity|]. symmetry. apply delete_id, E.
Qed.

(** A monitored child that ignores [terminate()] keeps its entry. *)
Lemma monitor_hangs chunks process_id s info :
  running_processes s !! process_id = Some info ->
  exists s',
    _monitor_background_process (StreamTimesOut chunks TermIgnored) process_id s
    = (s', Hang) /\
    is_Some (running_processes s' !! process_id).
Proof.
  intros E. unfold _monitor_background_process.
  unfold bind at 1, gets at 1. rewrite E.
  unfold try_finally, try_except, wait_for_stream.
  unfold bind at 1 2, gets at 1. rewrite E. run_monad.
  eexists. split; [reflexivity|]. simpl. rewrite lookup_alter_eq, E. simpl. eauto.
Qed.

(** ** The façade: entering [execute_command] and dispatching *)

Section Facade.
Variables (w : World) (command : string) (timeout : option Z)
          (stream_output background : bool) (working_dir : option string).

Lemma entered_fields (s : TerminalManager) :
  let e := entered command working_dir s in
  working_directory e = or_str working_dir (working_directory s) /\
  command_history e = (command_history s ++ [command])%list /\
  output_history e = output_history s /\
  running_processes e = running_processes s /\
  installed_pip e = installed_pip s /\
  installed_npm e = installed_npm s /\
  terminal_container_name e = terminal_container_name s /\
  command_timeout e = command_timeout s /\
  spawned e = spawned s /\
  terminated e = terminated s.
Proof.
  unfold entered, store_working_dir, spawned, terminated.
  destruct working_dir as [d|]; [destruct (String.eqb d EmptyString) eqn:E|];
    simpl; rewrite ?E, ?omap_app; simpl; rewrite ?app_nil_r; repeat split.
Qed.

Lemma or_str_entered (s : TerminalManager) :
  or_str working_dir (working_directory (entered command working_dir s))
  = or_str working_dir (working_directory s).
Proof.
  destruct (entered_fields s) as [-> _].
  destruct working_dir as [d|]; simpl; [|reflexivity].
  destruct (String.eqb d EmptyString) eqn:E; simpl; rewrite ?E; reflexivity.
Qed.

Lemma execute_returns (s s' : TerminalManager) (r : bool * string) :
  execute_command_body w command timeout stream_output background working_dir s
  = (s', Ret r) ->
  execute_command w command timeout stream_output background working_dir s
  = (s', Ret r).
Proof. intros H. unfold execute_command, try_except. rewrite H. reflexivity. Qed.

Lemma body_cd (s : TerminalManager) :
  is_cd (_clean_command command) = true ->
  execute_command_body w command timeout stream_output background working_dir s
  = _handle_cd_command w (_clean_command command) (entered command working_dir s).
Proof.
  intros H. unfold execute_command_body, entered, store_working_dir. rewrite H.
  destruct working_dir as [d|]; [destruct (negb _)|]; reflexivity.
Qed.

Lemma body_pip (s : TerminalManager) :
  is_cd (_clean_command command) = false ->
  is_pip_install (_clean_command command) = true ->
  execute_command_body w command timeout stream_output background working_dir s
  = _handle_pip_install w (_clean_command command) (entered command working_dir s).
Proof.
  intros H1 H2. unfold execute_command_body, entered, store_working_dir.
  rewrite H1, H2.
  destruct working_dir as [d|]; [destruct (negb _)|]; reflexivity.
Qed.

Lemma body_npm (s : TerminalManager) :
  is_cd (_clean_command command) = false ->
  is_pip_install (_clean_command command) = false ->
  is_npm_install (_clean_command command) = true ->
  execute_command_body w command timeout stream_output background working_dir s
  = _handle_npm_install w (_clean_command command) (entered command working_dir s).
Proof.
  intros H1 H2 H3. unfold execute_command_body, entered, store_working_dir.
  rewrite H1, H2, H3.
  destruct working_dir as [d|]; [destruct (negb _)|]; reflexivity.
Qed.

Lemma is_plain_inv (c : string) :
  is_plain c = true ->
  is_cd c = false /\ is_pip_install c = false /\ is_npm_install c = false.
Proof.
  unfold is_plain. rewrite !andb_true_iff, !negb_true_iff. tauto.
Qed.

Lemma body_plain_streaming (s : TerminalManager) :
  is_plain (_clean_command command) = true ->
  execute_command_body w command timeout true background working_dir s
  = _execute_with_streaming w (docker_command_of s command working_dir)
      (or_int timeout (command_timeout s)) background
      (entered command working_dir s).
Proof.
  intros H. apply is_plain_inv in H as (H1 & H2 & H3).
  unfold execute_command_body, docker_command_of. rewrite H1, H2, H3.
  rewrite <- (or_str_entered s).
  destruct (entered_fields s) as (_ & _ & _ & _ & _ & _ & <- & <- & _).
  unfold entered, store_working_dir.
  destruct working_dir as [d|]; [destruct (negb _)|]; reflexivity.
Qed.

Lemma body_plain_local (s : TerminalManager) :
  is_plain (_clean_command command) = true ->
  execute_command_body w command timeout false background working_dir s
  = (output <- _run_local_command w (docker_command_of s command working_dir)
                 (Some (or_int timeout (command_timeout s))) ;;
     modify (fun s => set_output_history (output_history s ++ [output]) s) ;;
     let success := negb (_detect_error_in_output output) in
     _broadcast_terminal_update "output"
       [("command", command); ("output", output); ("success", of_bool success)] ;;
     ret (success, output))
      (entered command working_dir s).
Proof.
  intros H. apply is_plain_inv in H as (H1 & H2 & H3).
  unfold execute_command_body, docker_command_of. rewrite H1, H2, H3.
  rewrite <- (or_str_entered s).
  destruct (entered_fields s) as (_ & _ & _ & _ & _ & _ & <- & <- & _).
  unfold entered, store_working_dir.
  destruct working_dir as [d|]; [destruct (negb _)|]; reflexivity.
Qed.

End Facade.

(** ** Directory changes *)

Section PathRoundTrip.
Import PosixPath.

Lemma head_of_no_sep (t : string) : contains "/" t = false -> head_of t = EmptyString.
Proof.
  induction t as [|c t IH]; [reflexivity|].
  change (contains "/" (String c t))
    with (startswith "/" (String c t) || contains "/" t).
  intros H. apply orb_false_iff in H as [Hc Ht].
  simpl. rewrite (IH Ht).
  change (startswith "/" (String c t)) with (Ascii.eqb sep c && true) in Hc.
  rewrite andb_true_r, Ascii.eqb_sym in Hc. rewrite Hc. reflexivity.
Qed.

Lemma head_of_app_sep (a t : string) :
  head_of t = EmptyString -> head_of (a ++ "/" ++ t) = a ++ "/".
Proof.
  intros Ht. induction a as [|c a IH].
  - change (EmptyString ++ "/" ++ t) with (String sep t). simpl. rewrite Ht. reflexivity.
  - rewrite append_cons. simpl. rewrite IH.
    destruct a; reflexivity.
Qed.

Lemma head_of_all_sep_app (a t : string) :
  all_sep a = true -> head_of t = EmptyString -> head_of (a ++ t) = a.
Proof.
  intros Ha Ht. induction a as [|c a IH]; [exact Ht|].
  simpl in Ha. apply andb_true_iff in Ha as [Hc Ha].
  rewrite append_cons. simpl. rewrite (IH Ha).
  destruct a; [rewrite Hc|]; reflexivity.
Qed.

Lemma all_sep_app_sep (a : string) : all_sep (a ++ "/") = all_sep a.
Proof.
  induction a as [|c a IH]; [reflexivity|].
  rewrite append_cons. simpl. rewrite IH. reflexivity.
Qed.

Lemma rstrip_sep_app_sep (a : string) :
  endswith_char sep a = false -> a <> EmptyString ->
  rstrip_char sep (a ++ "/") = a.
Proof.
  induction a as [|c a IH]; [congruence|]. intros He _.
  rewrite append_cons. simpl. destruct a as [|c' a].
  - simpl in He. simpl. rewrite He. reflexivity.
  - rewrite IH; [reflexivity| |discriminate]. exact He.
Qed.

Lemma not_trailing_not_all_sep (a : string) :
  endswith_char sep a = false -> a <> EmptyString -> all_sep a = false.
Proof.
  induction a as [|c a IH]; [congruence|]. intros He _.
  simpl. destruct a as [|c' a].
  - simpl in He. rewrite He. reflexivity.
  - rewrite IH; [apply andb_false_r| |discriminate]. exact He.
Qed.

Lemma all_sep_empty_or_trailing (a : string) :
  all_sep a = true -> a = EmptyString \/ endswith_char sep a = true.
Proof.
  induction a as [|c a IH]; [now left|]. simpl. intros H.
  apply andb_true_iff in H as [Hc Ha]. right.
  destruct (IH Ha) as [-> | He]; [exact Hc|]. destruct a; [discriminate|exact He].
Qed.

(** Joining a separator-free name and taking the directory name gives the
    directory back, as long as it has no trailing separator. *)
Lemma dirname_join (wd sub : string) :
  no_trailing_sep wd = true -> contains "/" sub = false ->
  dirname (join wd sub) = wd.
Proof.
  unfold no_trailing_sep. intros Hwd Hsub.
  pose proof (head_of_no_sep sub Hsub) as Hh.
  unfold join. rewrite (contains_false_startswith _ _ Hsub).
  destruct (all_sep wd) eqn:Ha.
  - (* separators only *)
    assert (Hj : (String.eqb wd EmptyString || endswith_char sep wd)%bool = true).
    { destruct (all_sep_empty_or_trailing wd Ha) as [-> | ->];
        [reflexivity|apply orb_true_r]. }
    rewrite Hj. unfold dirname. rewrite (head_of_all_sep_app wd sub Ha Hh), Ha.
    rewrite andb_false_r. reflexivity.
  - rewrite orb_false_r in Hwd. apply negb_true_iff in Hwd.
    assert (Hne : wd <> EmptyString) by (intros ->; discriminate).
    apply String.eqb_neq in Hne as Hne'. rewrite Hne', Hwd. simpl orb. cbv iota.
    unfold dirname. rewrite (head_of_app_sep wd sub Hh).
    rewrite all_sep_app_sep, Ha.
    assert (Hn : String.eqb (wd ++ "/") EmptyString = false).
    { apply String.eqb_neq. destruct wd; discriminate. }
    rewrite Hn. simpl negb. simpl andb. cbv iota.
    apply rstrip_sep_app_sep; assumption.
Qed.

End PathRoundTrip.

Section CdHandler.
Variables (w : World) (command : string) (s : TerminalManager).

Lemma handle_cd_up :
  strip (drop 3 command) = ".." ->
  exists s',
    _handle_cd_command w command s
    = (s', Ret (true, "Changed directory to " ++ PosixPath.dirname (working_directory s))) /\
    working_directory s' = PosixPath.dirname (working_directory s) /\
    spawned s' = spawned s.
Proof.
  intros H. unfold _handle_cd_command. rewrite H. run_monad.
  eexists. split; [reflexivity|]. split; [reflexivity|].
  unfold spawned. simpl. rewrite omap_app. simpl. apply app_nil_r.
Qed.

Lemma handle_cd_absolute :
  strip (drop 3 command) <> ".." ->
  startswith "/" (strip (drop 3 command)) = true ->
  exists s',
    _handle_cd_command w command s
    = (s', Ret (true, "Changed directory to " ++ strip (drop 3 command))) /\
    working_directory s' = strip (drop 3 command) /\
    spawned s' = spawned s.
Proof.
  intros Hne Habs. unfold _handle_cd_command.
  apply String.eqb_neq in Hne. rewrite Hne, Habs. run_monad.
  eexists. split; [reflexivity|]. split; [reflexivity|].
  unfold spawned. simpl. rewrite omap_app. simpl. apply app_nil_r.
Qed.

Lemma handle_cd_relative stdout stderr rc :
  let target_dir := strip (drop 3 command) in
  let new_dir := PosixPath.join (working_directory s) target_dir in
  let check_cmd := dir_check_cmd (terminal_container_name s) new_dir in
  let found := contains "exists" (local_output stdout stderr) in
  target_dir <> ".." ->
  startswith "/" target_dir = false ->
  local_shell w check_cmd = Spawned (LocalCompletes stdout stderr rc) ->
  exists s',
    _handle_cd_command w command s
    = (s', Ret (found,
                if found then "Changed directory to " ++ new_dir
                else "Directory not found: " ++ new_dir)) /\
    working_directory s' = (if found then new_dir else working_directory s) /\
    running_processes s' = running_processes s /\
    output_history s' = output_history s /\
    command_history s' = command_history s /\
    spawned s' = (spawned s ++ [check_cmd])%list /\
    terminated s' = terminated s.
Proof.
  intros target_dir new_dir check_cmd found Hne Hrel Hshell.
  unfold _handle_cd_command. fold target_dir.
  apply String.eqb_neq in Hne. rewrite Hne, Hrel.
  unfold _run_local_command. run_monad. fold new_dir. fold check_cmd.
  rewrite Hshell. simpl. fold found.
  destruct found; simpl; (eexists; split; [reflexivity|]); simpl; repeat split;
    unfold spawned, terminated; simpl; rewrite !omap_app; simpl;
    rewrite ?app_nil_r; reflexivity.
Qed.

End CdHandler.




(** C4 (amended): from a working directory without a trailing separator
    (or made of separators only), changing into an existing subdirectory
    given by a single name (no separator in it) and then changing to ".."
    restores the working directory to exactly its original value. *)
Theorem cd_into_subdirectory_and_back
    (w1 w2 : World) (s : TerminalManager) (command sub : string)
    (t1 t2 : option Z) (so1 bg1 so2 bg2 : bool) (stdout stderr : string) (rc : Z) :
  let cleaned := _clean_command command in
  let new_dir := PosixPath.join (working_directory s) sub in
  is_cd cleaned = true ->
  strip (drop 3 cleaned) = sub ->
  sub <> ".." ->
  contains "/" sub = false ->
  no_trailing_sep (working_directory s) = true ->
  local_shell w1 (dir_check_cmd (terminal_container_name s) new_dir)
  = Spawned (LocalCompletes stdout stderr rc) ->
  contains "exists" (local_output stdout stderr) = true ->
  exists s1 s2,
    execute_command w1 command t1 so1 bg1 None s
    = (s1, Ret (true, "Changed directory to " ++ new_dir)) /\
    working_directory s1 = new_dir /\
    execute_command w2 "cd .." t2 so2 bg2 None s1
    = (s2, Ret (true, "Changed directory to " ++ working_directory s)) /\
    working_directory s2 = working_directory s.
Proof.
  intros cleaned new_dir Hcd Hsub Hne Hsep Hwd Hshell Hfound.
  fold cleaned in Hsub.
  assert (Ewd : working_directory (entered command None s) = working_directory s)
    by reflexivity.
  assert (Ename : terminal_container_name (entered command None s)
                  = terminal_container_name s) by reflexivity.
  destruct (handle_cd_relative w1 cleaned (entered command None s) stdout stderr rc)
    as (s1 & Hrun1 & Hwd1 & _).
  - rewrite Hsub. exact Hne.
  - rewrite Hsub. now apply contains_false_startswith.
  - rewrite Hsub, Ewd, Ename. exact Hshell.
  - rewrite Hfound, Hsub, Ewd in Hrun1, Hwd1. fold new_dir in Hrun1, Hwd1.
    assert (Ewd2 : working_directory (entered "cd .." None s1) = working_directory s1)
      by reflexivity.
    destruct (handle_cd_up w2 (_clean_command "cd ..") (entered "cd .." None s1) eq_refl)
      as (s2 & Hrun2 & Hwd2 & _).
    rewrite Ewd2, Hwd1 in Hrun2, Hwd2. unfold new_dir in Hrun2, Hwd2.
    rewrite (dirname_join _ _ Hwd Hsep) in Hrun2, Hwd2.
    exists s1, s2. repeat split.
    + apply execute_returns. rewrite body_cd by exact Hcd. exact Hrun1.
    + exact Hwd1.
    + apply execute_returns. rewrite body_cd by reflexivity. exact Hrun2.
    + exact Hwd2.
Qed.

Lemma cd_into_subdirectory_and_back_witness :
  exists s1 s2,
    execute_command world_exists "cd  project" None true false None manager0
    = (s1, Ret (true, "Changed directory to /workspace/project")) /\
    working_directory s1 = "/workspace/project" /\
    execute_command world_hello "cd .." None true false None s1
    = (s2, Ret (true, "Changed directory to /workspace")) /\
    working_directory s2 = "/workspace".
Proof.
  apply (cd_into_subdirectory_and_back world_exists world_hello manager0
           "cd  project" "project" None None true false true false
           ("exists" ++ nl) EmptyString 0).
  - reflexivity.
  - reflexivity.
  - discriminate.
  - reflexivity.
  - reflexivity.
  - reflexivity.
  - reflexivity.
Defined.

(** C4, as stated, fails: after [cd /workspace/] the working directory is
    "/workspace/"; changing into [sub] and back leaves "/workspace". *)
Lemma cd_round_trip_drops_trailing_separator :
  working_directory (run_ops [(world_exists, cd_workspace_slash_op)] manager0)
  = "/workspace/" /\
  working_directory
    (run_ops [(world_exists, cd_workspace_slash_op); (world_exists, cd_sub_op)] manager0)
  = "/workspace/sub" /\
  working_directory
    (run_ops [(world_exists, cd_workspace_slash_op); (world_exists, cd_sub_op);
              (world_exists, cd_up_op)] manager0)
  = "/workspace".
Proof. vm_compute. repeat split; reflexivity. Qed.

(** ** Results of the supervisor *)

(** On the streaming path ([_execute_with_streaming], lines 577-578) the
    success flag of a child that runs to its end is true if and only if
    the exit code is zero and the classifier finds no error pattern in the
    combined output; an output containing a classifier keyword gives
    [success = False] whatever the exit code. *)
Lemma success_flag_on_normal_completion
    (w : World) (s : TerminalManager) (docker_command : string) (timeout : Z)
    (chunks : list string) (rc : Z) :
  stream_shell w docker_command = Spawned (StreamCompletes chunks rc) ->
  let output := String.concat EmptyString chunks in
  exists s' success,
    _execute_with_streaming w docker_command timeout false s
    = (s', Ret (success, output)) /\
    (success = true <-> rc = 0 /\ _detect_error_in_output output = false) /\
    (forall kw, In kw error_keywords -> occurs_in kw output -> success = false).
Proof.
  intros H output.
  destruct (streaming_completes w s docker_command timeout chunks rc H)
    as (s' & Hrun & _).
  exists s', ((rc =? 0) && negb (_detect_error_in_output output)).
  split; [exact Hrun|]. split.
  - rewrite andb_true_iff, negb_true_iff, Z.eqb_eq. reflexivity.
  - intros kw Hin Hocc.
    assert (Hd : _detect_error_in_output output = true)
      by (apply detect_error_spec; eauto).
    rewrite Hd. apply andb_false_r.
Qed.

(** A child that exits with 0 after printing a traceback is a failure. *)
Lemma success_flag_on_normal_completion_witness :
  exists s' success,
    _execute_with_streaming world_traceback "python3 job.py" 300 false manager0
    = (s', Ret (success, "Traceback (most recent call last)" ++ nl)) /\
    (success = true <->
     0 = 0 /\ _detect_error_in_output ("Traceback (most recent call last)" ++ nl) = false) /\
    (forall kw, In kw error_keywords ->
                occurs_in kw ("Traceback (most recent call last)" ++ nl) -> success = false).
Proof.
  apply (success_flag_on_normal_completion world_traceback manager0 "python3 job.py" 300
           ["Traceback (most recent call last)"; nl] 0).
  reflexivity.
Defined.

(** The same holds for a plain command that goes through the façade with
    streaming. *)
Lemma execute_plain_streaming_completes
    (w : World) (s : TerminalManager) (command : string) (timeout : option Z)
    (working_dir : option string) (chunks : list string) (rc : Z) :
  is_plain (_clean_command command) = true ->
  stream_shell w (docker_command_of s command working_dir)
  = Spawned (StreamCompletes chunks rc) ->
  let output := String.concat EmptyString chunks in
  exists s',
    execute_command w command timeout true false working_dir s
    = (s', Ret ((rc =? 0) && negb (_detect_error_in_output output), output)).
Proof.
  intros Hplain H output.
  destruct (streaming_completes w (entered command working_dir s) _
              (or_int timeout (command_timeout s)) chunks rc H) as (s' & Hrun & _).
  exists s'. apply execute_returns. rewrite body_plain_streaming by exact Hplain.
  exact Hrun.
Qed.

(** Without streaming (lines 224-230) the façade classifies the output
    only: a keyword still forces a failure, the exit code is not
    consulted. *)
Lemma execute_plain_local_completes
    (w : World) (s : TerminalManager) (command : string) (timeout : option Z)
    (background : bool) (working_dir : option string) (stdout stderr : string) (rc : Z) :
  is_plain (_clean_command command) = true ->
  local_shell w (docker_command_of s command working_dir)
  = Spawned (LocalCompletes stdout stderr rc) ->
  let output := local_output stdout stderr in
  exists s',
    execute_command w command timeout false background working_dir s
    = (s', Ret (negb (_detect_error_in_output output), output)) /\
    running_processes s' = running_processes s.
Proof.
  intros Hplain H output.
  destruct (entered_fields command working_dir s) as (_ & _ & _ & Erp & _).
  eexists. split.
  - apply execute_returns. rewrite body_plain_local by exact Hplain.
    unfold _run_local_command. rewrite H. run_monad. reflexivity.
  - simpl. exact Erp.
Qed.

(** C1 fails on the code: a child that prints "done" and exits with
    status 3 is reported as a success when [execute_command] runs it
    without streaming, where line 230 reads the classifier only, and as a
    failure when the same call streams, where line 578 also reads the exit
    code.  No keyword of the classifier occurs in the output. *)
Theorem nonstreaming_success_ignores_exit_code :
  snd (execute_command world_exit3 "python3 job.py" None false false None manager0)
  = Ret (true, "done" ++ nl) /\
  snd (execute_command world_exit3 "python3 job.py" None true false None manager0)
  = Ret (false, "done" ++ nl) /\
  _detect_error_in_output ("done" ++ nl) = false /\
  local_shell world_exit3 (docker_command_of manager0 "python3 job.py" None)
  = Spawned (LocalCompletes ("done" ++ nl) EmptyString 3) /\
  stream_shell world_exit3 (docker_command_of manager0 "python3 job.py" None)
  = Spawned (StreamCompletes ["done"; nl] 3).
Proof. vm_compute. repeat split; reflexivity. Qed.

(** C8 (amended): for every plain foreground command run with streaming
    that outlives its timeout T and whose child does not survive the
    termination signal, [execute_command] returns [success = False] with
    the output "Command timed out after T seconds", a newline and whatever
    output was captured so far, after one [terminate()] and a wait for the
    child; the registry entry is removed.  No force-kill follows and no
    bound on the wait is enforced. *)
Theorem foreground_timeout_result
    (w : World) (s : TerminalManager) (command : string) (timeout : option Z)
    (working_dir : option string) (chunks : list string) (r : TermResponse) :
  let docker_command := docker_command_of s command working_dir in
  let T := or_int timeout (command_timeout s) in
  let message :=
    "Command timed out after " ++ of_int T ++ " seconds" ++ nl
    ++ String.concat EmptyString chunks in
  is_plain (_clean_command command) = true ->
  stream_shell w docker_command = Spawned (StreamTimesOut chunks r) ->
  r <> TermIgnored ->
  exists s',
    execute_command w command timeout true false working_dir s
    = (s', Ret (false, message)) /\
    terminated s' = (terminated s ++ [docker_command])%list /\
    running_processes s'
    = delete (make_process_id w docker_command) (running_processes s) /\
    output_history s' = (output_history s ++ [message])%list.
Proof.
  intros docker_command T message Hplain H Hr.
  destruct (entered_fields command working_dir s)
    as (_ & _ & Eout & Erp & _ & _ & _ & _ & _ & Ete).
  destruct (streaming_times_out w (entered command working_dir s) docker_command T
              chunks r H Hr) as (s' & Hrun & Hrp & Hout & _ & Hte).
  rewrite Erp in Hrp. rewrite Eout in Hout. rewrite Ete in Hte.
  exists s'. repeat split; try assumption.
  apply execute_returns. rewrite body_plain_streaming by exact Hplain. exact Hrun.
Qed.

Lemma foreground_timeout_result_witness :
  exists s',
    execute_command world_slow "sleep 5" (Some 1) true false None manager0
    = (s', Ret (false, "Command timed out after 1 seconds" ++ nl ++ "tick" ++ nl)) /\
    terminated s' = [docker_command_of manager0 "sleep 5" None] /\
    running_processes s'
    = delete (make_process_id world_slow (docker_command_of manager0 "sleep 5" None))
        (running_processes manager0) /\
    output_history s' = ["Command timed out after 1 seconds" ++ nl ++ "tick" ++ nl].
Proof.
  apply (foreground_timeout_result world_slow manager0 "sleep 5" (Some 1) None
           ["tick"; nl] TermExits).
  - reflexivity.
  - reflexivity.
  - discriminate.
Defined.

(** C8, as stated, fails: a child that ignores the termination signal is
    never force-killed, and the call never returns. *)
Lemma foreground_timeout_can_hang :
  snd (execute_command world_stubborn "sleep 5" (Some 1) true false None manager0) = Hang /\
  terminated
    (fst (execute_command world_stubborn "sleep 5" (Some 1) true false None manager0))
  = [docker_command_of manager0 "sleep 5" None].
Proof. vm_compute. split; reflexivity. Qed.

(** C9 (amended): for every call with [background=True] that reaches the
    supervisor (streaming enabled, a plain command, the child spawns), the
    call returns [success = True] with a message containing the new process
    identifier; the identifier is in the registry when the call returns,
    and the monitor removes it whenever it comes to an end (completion,
    timeout of a child that then exits, or a monitoring error). *)
Theorem background_execution_registers
    (w : World) (s : TerminalManager) (command : string) (timeout : option Z)
    (working_dir : option string) (run : StreamRun) :
  let docker_command := docker_command_of s command working_dir in
  let process_id := make_process_id w docker_command in
  let message := "Started background process " ++ process_id in
  is_plain (_clean_command command) = true ->
  stream_shell w docker_command = Spawned run ->
  exists s',
    execute_command w command timeout true true working_dir s = (s', Ret (true, message)) /\
    occurs_in process_id message /\
    running_processes s' !! process_id
    = Some (mkProcessInfo docker_command true (or_int timeout (command_timeout s)) []) /\
    (forall run' s1,
        term_response run' <> TermIgnored ->
        exists s2,
          _monitor_background_process run' process_id s1 = (s2, Ret tt) /\
          running_processes s2 = delete process_id (running_processes s1) /\
          running_processes s2 !! process_id = None).
Proof.
  intros docker_command process_id message Hplain H.
  destruct (entered_fields command working_dir s) as (_ & _ & _ & Erp & _).
  destruct (streaming_background w (entered command working_dir s) docker_command
              (or_int timeout (command_timeout s)) run H) as (s' & Hrun & Hrp & _).
  exists s'. repeat split.
  - apply execute_returns. rewrite body_plain_streaming by exact Hplain. exact Hrun.
  - exists "Started background process ", EmptyString.
    rewrite append_empty_r. reflexivity.
  - rewrite Hrp. apply lookup_insert_eq.
  - intros run' s1 Hend.
    destruct (monitor_removes run' process_id s1 Hend) as (s2 & Hm & Hd).
    exists s2. repeat split; try assumption. rewrite Hd. apply lookup_delete_eq.
Qed.

Lemma background_execution_registers_witness :
  exists s',
    execute_command world_hello "python3 server.py" None true true None manager0
    = (s', Ret (true, "Started background process process_1700000000_4242")) /\
    occurs_in "process_1700000000_4242"
      "Started background process process_1700000000_4242" /\
    running_processes s' !! "process_1700000000_4242"
    = Some (mkProcessInfo (docker_command_of manager0 "python3 server.py" None)
              true 300 []) /\
    (forall run' s1,
        term_response run' <> TermIgnored ->
        exists s2,
          _monitor_background_process run' "process_1700000000_4242" s1 = (s2, Ret tt) /\
          running_processes s2 = delete "process_1700000000_4242" (running_processes s1) /\
          running_processes s2 !! "process_1700000000_4242" = None).
Proof.
  apply (background_execution_registers world_hello manager0 "python3 server.py"
           None None (StreamCompletes ["hello"; nl] 0)).
  - reflexivity.
  - reflexivity.
Defined.

(** C9, as stated, fails: without streaming the [background] flag is not
    consulted, the call runs the command in the foreground and nothing is
    registered; a directory change with [background=True] can even fail. *)
Lemma background_flag_not_consulted :
  snd (execute_command world_exists "echo exists" None false true None manager0)
  = Ret (true, "exists" ++ nl) /\
  running_processes
    (fst (execute_command world_exists "echo exists" None false true None manager0))
  = ∅ /\
  snd (execute_command world_hello "cd missing" None true true None manager0)
  = Ret (false, "Directory not found: /workspace/missing").
Proof. vm_compute. repeat split; reflexivity. Qed.

(** ** The history logs *)

(** C6 fails on the code: a directory change appends the command but no
    output, so the two logs differ in length, and the output of the next
    command sits at the index of the directory change. *)
Theorem cd_misaligns_histories :
  get_command_history (run_ops [(world_hello, cd_workspace_op)] manager0)
  = ["cd /workspace"] /\
  get_output_history (run_ops [(world_hello, cd_workspace_op)] manager0) = [] /\
  get_command_history
    (run_ops [(world_hello, cd_workspace_op); (world_hello, echo_hello_op)] manager0)
  = ["cd /workspace"; "echo hello"] /\
  get_output_history
    (run_ops [(world_hello, cd_workspace_op); (world_hello, echo_hello_op)] manager0)
  = ["hello" ++ nl].
Proof. vm_compute. repeat split; reflexivity. Qed.

(** ** Package installs *)

#[local] Arguments startswith : simpl never.
#[local] Arguments mem : simpl never.
#[local] Arguments split : simpl never.
#[local] Arguments extract_packages : simpl never.

Section Extraction.






End Extraction.

Section Dedup.





End Dedup.

Section InstallHandlers.

#[local] Arguments _execute_with_streaming : simpl never.
#[local] Arguments not_installed : simpl never.
#[local] Arguments already_installed_message : simpl never.
#[local] Arguments replace : simpl never.
#[local] Arguments join : simpl never.
#[local] Arguments contains : simpl never.
#[local] Arguments list_to_set : simpl never.

Variables (w : World) (c : string) (s : TerminalManager).



(** Nothing new to install: the npm handler returns at once. *)
Lemma npm_skip :
  (mem "-g" (split c) || mem "--global" (split c))%bool = false ->
  split c <> [] ->
  not_installed (installed_npm s) (npm_packages c) = [] ->
  exists s',
    _handle_npm_install w c s
    = (s', Ret (true, already_installed_message (npm_packages c))) /\
    installed_pip s' = installed_pip s /\
    installed_npm s' = installed_npm s /\
    running_processes s' = running_processes s /\
    output_history s' = output_history s /\
    spawned s' = spawned s.
Proof.
  intros Hg Hparts. unfold _handle_npm_install, npm_packages.
  destruct (split c) as [|parts_0 parts] eqn:E; [congruence|]. intros Hnone.
  rewrite Hg. unfold bind at 1, gets at 1. rewrite Hnone. run_monad.
  eexists. split; [reflexivity|]. simpl. repeat split.
  unfold spawned. simpl. rewrite omap_app. simpl. apply app_nil_r.
Qed.


End InstallHandlers.

Section InstallFacade.

#[local] Arguments _execute_with_streaming : simpl never.
#[local] Arguments not_installed : simpl never.
#[local] Arguments list_to_set : simpl never.
#[local] Arguments _clean_command : simpl never.



Lemma npm_not_cd (c : string) : is_npm_install c = true -> is_cd c = false.
Proof.
  unfold is_npm_install, is_cd. intros H. apply orb_true_iff in H as [H|H];
    apply startswith_inv in H as [t ->]; reflexivity.
Qed.

Lemma split_from_nonempty (cur s : string) :
  cur <> EmptyString -> split_from cur s <> [].
Proof.
  revert cur. induction s as [|c s IH]; intros cur Hcur; simpl.
  - destruct cur; [congruence|discriminate].
  - destruct (is_space c).
    + destruct cur; [congruence|discriminate].
    + apply IH. discriminate.
Qed.

Lemma npm_split_nonempty (c : string) : is_npm_install c = true -> split c <> [].
Proof.
  unfold is_npm_install. intros H. apply orb_true_iff in H as [H|H];
    apply startswith_inv in H as [t ->]; unfold split.
  - change (split_from EmptyString ("npm install " ++ t))
      with (split_from "n" ("pm install " ++ t)).
    apply split_from_nonempty. discriminate.
  - change (split_from EmptyString ("yarn add " ++ t))
      with (split_from "y" ("arn add " ++ t)).
    apply split_from_nonempty. discriminate.
Qed.


End InstallFacade.

Section InstalledSets.

#[local] Arguments _execute_with_streaming : simpl never.
#[local] Arguments not_installed : simpl never.
#[local] Arguments list_to_set : simpl never.
#[local] Arguments _clean_command : simpl never.

Variables (pip npm : gset string).









End InstalledSets.





(** The engine itself never truncates the history logs: every operation
    leaves each log with its former content as a prefix. *)
Lemma histories_only_grow (w : World) (op : Op) (s : TerminalManager) :
  command_history s `prefix_of` command_history (step w op s) /\
  output_history s `prefix_of` output_history (step w op s).
Proof.
  assert (Hs : histories_extend (command_history s) (output_history s) s)
    by (split; reflexivity).
  revert Hs. generalize (command_history s) (output_history s). intros cs os Hs.
  assert (Hobl : forall m : M (bool * string), stable (histories_extend cs os) m ->
                 histories_extend cs os (fst (m s))) by (intros m Hm; apply Hm, Hs).
  destruct op; simpl.
  - apply Hobl.
    unfold execute_command, execute_command_body, _handle_cd_command,
      _handle_pip_install, _handle_npm_install.
    stable_steps;
      try (unfold histories_extend; intros ? [? ?]; simpl; split;
           auto using prefix_app_r).
  - apply Hobl.
    unfold execute_interactive_command, execute_interactive_command_body.
    stable_steps;
      try (unfold histories_extend; intros ? [? ?]; simpl; split;
           auto using prefix_app_r).
  - assert (Hm : stable (histories_extend cs os)
                   (_monitor_background_process run process_id)).
    { unfold _monitor_background_process.
      stable_steps;
        try (unfold histories_extend; intros ? [? ?]; simpl; split;
             auto using prefix_app_r). }
    apply Hm, Hs.
Qed.

(** * Further properties of the engine *)

(** ** Outcomes of [execute_command] in the model *)

(** The broadcast sink is modelled as a call that records the message and
    returns, so the two [except] handlers of [execute_command], which end
    by awaiting the sink, always return.  With such a sink the outcome of
    a call is a result or an endless wait.  A sink that raises inside a
    handler (lines 251 and 264) is outside the model. *)
Lemma execute_never_raises
    (w : World) (s : TerminalManager) (command : string) (timeout : option Z)
    (stream_output background : bool) (working_dir : option string) (e : Exn) :
  snd (execute_command w command timeout stream_output background working_dir s)
  <> Raise e.
Proof.
  unfold execute_command, try_except.
  destruct (execute_command_body w command timeout stream_output background
              working_dir s) as [s' [r|[|msg]|]]; run_monad; discriminate.
Qed.

(** ** A general rule for [execute_command] *)

Section ExecutePost.
Variables (w : World) (command : string) (timeout : option Z)
          (background : bool) (working_dir : option string).
Variable P : TerminalManager -> Prop.
Hypothesis P_events : ignores_events P.

Lemma stable_log_event (e : Event) : stable P (log_event e).
Proof. unfold log_event. apply stable_modify. intros s H. now apply P_events. Qed.

Lemma stable_broadcast (t : string) (d : list (string * string)) :
  stable P (_broadcast_terminal_update t d).
Proof. apply stable_log_event. Qed.

Lemma execute_command_from_entered (stream_output : bool) (rest : M (bool * string))
    (s : TerminalManager) :
  execute_command_body w command timeout stream_output background working_dir s
  = rest (entered command working_dir s) ->
  stable P rest ->
  P (entered command working_dir s) ->
  P (fst (execute_command w command timeout stream_output background working_dir s)).
Proof.
  intros Hbody Hrest He. unfold execute_command, try_except. rewrite Hbody.
  specialize (Hrest _ He).
  destruct (rest (entered command working_dir s)) as [s' [r|[|msg]|]];
    run_monad; auto.
Qed.

(** If [P] holds on entry and is kept by the three handlers, by the
    supervisor, by [_run_local_command] and by appending an output, then
    it holds when [execute_command] is over. *)
Lemma execute_command_post (stream_output : bool) (s : TerminalManager) :
  P (entered command working_dir s) ->
  stable P (_handle_cd_command w (_clean_command command)) ->
  stable P (_handle_pip_install w (_clean_command command)) ->
  stable P (_handle_npm_install w (_clean_command command)) ->
  (forall dc t b, stable P (_execute_with_streaming w dc t b)) ->
  (forall dc t, stable P (_run_local_command w dc t)) ->
  (forall s0 o, P s0 -> P (set_output_history (output_history s0 ++ [o]) s0)) ->
  P (fst (execute_command w command timeout stream_output background working_dir s)).
Proof.
  intros He Hcd Hpip Hnpm Hstream Hlocal Hout.
  destruct (is_cd (_clean_command command)) eqn:Ecd.
  { eapply execute_command_from_entered; eauto using body_cd. }
  destruct (is_pip_install (_clean_command command)) eqn:Epip.
  { eapply execute_command_from_entered; eauto using body_pip. }
  destruct (is_npm_install (_clean_command command)) eqn:Enpm.
  { eapply execute_command_from_entered; eauto using body_npm. }
  assert (Hplain : is_plain (_clean_command command) = true)
    by (unfold is_plain; rewrite Ecd, Epip, Enpm; reflexivity).
  destruct stream_output.
  - eapply execute_command_from_entered; eauto using body_plain_streaming.
  - eapply execute_command_from_entered; eauto using body_plain_local.
    apply stable_bind; [apply Hlocal|intros output].
    apply stable_bind; [apply stable_modify; intros; now apply Hout|intros _].
    apply stable_bind; [apply stable_broadcast|intros _]. apply stable_ret.
Qed.

End ExecutePost.

(** ** The history logs *)

Section CommandLog.
Variable v : list string.

Lemma commands_ignore_events : ignores_events (commands_are v).
Proof. intros s ev H. exact H. Qed.

Lemma streaming_keeps_commands w c t b :
  stable (commands_are v) (_execute_with_streaming w c t b).
Proof. unfold commands_are. stable_auto. Qed.

Lemma local_keeps_commands w c t : stable (commands_are v) (_run_local_command w c t).
Proof. unfold commands_are. stable_auto. Qed.

Lemma cd_keeps_commands w c : stable (commands_are v) (_handle_cd_command w c).
Proof.
  unfold _handle_cd_command.
  stable_steps; try apply local_keeps_commands; unfold commands_are; stable_auto.
Qed.

Lemma pip_keeps_commands w c : stable (commands_are v) (_handle_pip_install w c).
Proof.
  unfold _handle_pip_install.
  stable_steps; try apply streaming_keeps_commands; unfold commands_are; stable_auto.
Qed.

Lemma npm_keeps_commands w c : stable (commands_are v) (_handle_npm_install w c).
Proof.
  unfold _handle_npm_install.
  stable_steps; try apply streaming_keeps_commands; unfold commands_are; stable_auto.
Qed.

Lemma monitor_keeps_commands run pid :
  stable (commands_are v) (_monitor_background_process run pid).
Proof. unfold _monitor_background_process, commands_are. stable_auto. Qed.

End CommandLog.

Lemma execute_appends_command
    (w : World) (s : TerminalManager) (command : string) (timeout : option Z)
    (stream_output background : bool) (working_dir : option string) :
  command_history
    (fst (execute_command w command timeout stream_output background working_dir s))
  = (command_history s ++ [command])%list.
Proof.
  apply (execute_command_post w command timeout background working_dir
           (commands_are (command_history s ++ [command]))).
  - apply commands_ignore_events.
  - unfold commands_are. now destruct (entered_fields command working_dir s) as (_ & -> & _).
  - apply cd_keeps_commands.
  - apply pip_keeps_commands.
  - apply npm_keeps_commands.
  - intros. apply streaming_keeps_commands.
  - intros. apply local_keeps_commands.
  - intros s0 o H. exact H.
Qed.

(** X2: every call of [execute_command] appends exactly its command, as
    given by the caller, to the command log and leaves the earlier entries
    alone; this holds on every path, failures and waits included. *)
Theorem execute_command_records_command
    (w : World) (s : TerminalManager) (command : string) (timeout : option Z)
    (stream_output background : bool) (working_dir : option string) :
  command_history
    (fst (execute_command w command timeout stream_output background working_dir s))
  = (command_history s ++ [command])%list.
Proof. apply execute_appends_command. Qed.

Lemma interactive_records_command
    (w : World) (s : TerminalManager) (command : string)
    (inputs : option (list string)) (timeout : option Z) (working_dir : option string) :
  command_history
    (fst (execute_interactive_command w command inputs timeout working_dir s))
  = (command_history s ++ [command])%list.
Proof.
  unfold execute_interactive_command, execute_interactive_command_body.
  unfold bind at 1 2.
  assert (Hs : forall s0, store_working_dir working_dir s0
                          = (fst (store_working_dir working_dir s0), Ret tt)).
  { intros s0. unfold store_working_dir.
    destruct working_dir as [d|]; [destruct (negb _)|]; reflexivity. }
  assert (Hc : command_history (fst (store_working_dir working_dir s)) = command_history s).
  { unfold store_working_dir.
    destruct working_dir as [d|]; [destruct (negb _)|]; reflexivity. }
  unfold try_except. rewrite Hs. unfold modify at 1. cbv beta iota.
  match goal with
  | |- context [bind ?m ?k ?s0] =>
      assert (Hst : stable (commands_are (command_history s ++ [command])) (bind m k));
      [|specialize (Hst s0); destruct (bind m k s0) as [s' [r|[|msg]|]]]
  end.
  { stable_steps; try apply local_keeps_commands; unfold commands_are; stable_auto. }
  all: run_monad; apply Hst; unfold commands_are; simpl; rewrite Hc; reflexivity.
Qed.

Section OutputLog.

Lemma streaming_output_cases w c t b s :
  outputs_at_most_one_more (output_history s)
    (fst (_execute_with_streaming w c t b s)).
Proof.
  unfold outputs_at_most_one_more, _execute_with_streaming.
  destruct (stream_shell w c) as [msg|run]; [now left|].
  destruct b; [now left|].
  unfold wait_for_stream.
  destruct run as [chunks rc|chunks r|chunks msg]; [|destruct r| ];
    run_monad; rewrite lookup_insert_eq; simpl; eauto.
Qed.

Lemma local_keeps_outputs w c t v :
  stable (fun s => output_history s = v) (_run_local_command w c t).
Proof. stable_auto. Qed.

Lemma cd_keeps_outputs w c v :
  stable (fun s => output_history s = v) (_handle_cd_command w c).
Proof.
  unfold _handle_cd_command.
  stable_steps; try apply local_keeps_outputs; stable_auto.
Qed.

Lemma monitor_keeps_outputs run pid v :
  stable (fun s => output_history s = v) (_monitor_background_process run pid).
Proof. unfold _monitor_background_process. stable_auto. Qed.

#[local] Arguments _execute_with_streaming : simpl never.
#[local] Arguments not_installed : simpl never.
#[local] Arguments list_to_set : simpl never.

Lemma pip_output_cases w c s :
  outputs_at_most_one_more (output_history s) (fst (_handle_pip_install w c s)).
Proof.
  unfold _handle_pip_install.
  destruct (mem "-r" (split c)).
  - unfold _prepare_docker_command. run_monad. apply streaming_output_cases.
  - unfold bind at 1, gets at 1.
    destruct (not_installed (installed_pip s) _) as [|p l].
    + run_monad. now left.
    + unfold _prepare_docker_command. run_monad.
      match goal with
      | |- context [_execute_with_streaming w ?dc ?t false s] =>
          pose proof (streaming_output_cases w dc t false s) as Hk;
          destruct (_execute_with_streaming w dc t false s) as [sB [[b o']|e|]]
      end; simpl in *; try exact Hk.
      destruct b; simpl; exact Hk.
Qed.

Lemma npm_output_cases w c s :
  outputs_at_most_one_more (output_history s) (fst (_handle_npm_install w c s)).
Proof.
  unfold _handle_npm_install.
  destruct (split c) as [|parts_0 parts]; [now left|].
  destruct (_ || _)%bool.
  - unfold _prepare_docker_command. run_monad. apply streaming_output_cases.
  - unfold bind at 1, gets at 1.
    destruct (not_installed (installed_npm s) _) as [|p l].
    + run_monad. now left.
    + unfold _prepare_docker_command. run_monad.
      match goal with
      | |- context [_execute_with_streaming w ?dc ?t false s] =>
          pose proof (streaming_output_cases w dc t false s) as Hk;
          destruct (_execute_with_streaming w dc t false s) as [sB [[b o']|e|]]
      end; simpl in *; try exact Hk.
      destruct b; simpl; exact Hk.
Qed.

Lemma execute_command_by_cases (Q : TerminalManager -> Prop)
    (w : World) (command : string) (timeout : option Z)
    (stream_output background : bool) (working_dir : option string)
    (rest : M (bool * string)) (s : TerminalManager) :
  ignores_events Q ->
  execute_command_body w command timeout stream_output background working_dir s
  = rest (entered command working_dir s) ->
  Q (fst (rest (entered command working_dir s))) ->
  Q (fst (execute_command w command timeout stream_output background working_dir s)).
Proof.
  intros HQ Hbody Hrest. unfold execute_command, try_except. rewrite Hbody.
  destruct (rest (entered command working_dir s)) as [s' [r|[|msg]|]];
    run_monad; auto.
Qed.

End OutputLog.

Lemma execute_output_cases
    (w : World) (s : TerminalManager) (command : string) (timeout : option Z)
    (stream_output background : bool) (working_dir : option string) :
  let s' := fst (execute_command w command timeout stream_output background working_dir s) in
  output_history s' = output_history s \/
  exists output, output_history s' = (output_history s ++ [output])%list.
Proof.
  simpl.
  assert (HQ : ignores_events (outputs_at_most_one_more (output_history s)))
    by (intros s0 ev H; exact H).
  destruct (entered_fields command working_dir s) as (_ & _ & Eout & _).
  destruct (is_cd (_clean_command command)) eqn:Ecd.
  { eapply (execute_command_by_cases _ _ _ _ _ _ _ _ _ HQ (body_cd _ _ _ _ _ _ _ Ecd)).
    left. now apply cd_keeps_outputs. }
  destruct (is_pip_install (_clean_command command)) eqn:Epip.
  { eapply (execute_command_by_cases _ _ _ _ _ _ _ _ _ HQ (body_pip _ _ _ _ _ _ _ Ecd Epip)).
    rewrite <- Eout. apply pip_output_cases. }
  destruct (is_npm_install (_clean_command command)) eqn:Enpm.
  { eapply (execute_command_by_cases _ _ _ _ _ _ _ _ _ HQ
              (body_npm _ _ _ _ _ _ _ Ecd Epip Enpm)).
    rewrite <- Eout. apply npm_output_cases. }
  assert (Hplain : is_plain (_clean_command command) = true)
    by (unfold is_plain; rewrite Ecd, Epip, Enpm; reflexivity).
  destruct stream_output.
  - eapply (execute_command_by_cases _ _ _ _ _ _ _ _ _ HQ
              (body_plain_streaming _ _ _ _ _ _ Hplain)).
    rewrite <- Eout. apply streaming_output_cases.
  - eapply (execute_command_by_cases _ _ _ _ _ _ _ _ _ HQ
              (body_plain_local _ _ _ _ _ _ Hplain)).
    unfold bind at 1.
    match goal with
    | |- context [_run_local_command w ?dc ?t ?s0] =>
        pose proof (local_keeps_outputs w dc t _ s0 Eout) as Hk;
        destruct (_run_local_command w dc t s0) as [s1 [o| |]]
    end; simpl in *; try (now left).
    right. exists o. run_monad. now rewrite Hk.
Qed.

(** X3: every call of [execute_command] appends at most one entry to the
    output log and leaves the earlier entries alone. *)
Theorem execute_command_appends_at_most_one_output
    (w : World) (s : TerminalManager) (command : string) (timeout : option Z)
    (stream_output background : bool) (working_dir : option string) :
  let s' := fst (execute_command w command timeout stream_output background working_dir s) in
  output_history s' = output_history s \/
  exists output, output_history s' = (output_history s ++ [output])%list.
Proof. apply execute_output_cases. Qed.

Lemma interactive_output_cases
    (w : World) (s : TerminalManager) (command : string)
    (inputs : option (list string)) (timeout : option Z) (working_dir : option string) :
  outputs_at_most_one_more (output_history s)
    (fst (execute_interactive_command w command inputs timeout working_dir s)).
Proof.
  unfold outputs_at_most_one_more, execute_interactive_command,
    execute_interactive_command_body, store_working_dir.
  destruct working_dir as [d|]; [destruct (negb (String.eqb d EmptyString))|];
    run_monad;
    match goal with
    | |- context [_run_local_command w ?dc ?t ?s0] =>
        pose proof (local_keeps_outputs w dc t _ s0 eq_refl) as Hk;
        destruct (_run_local_command w dc t s0) as [s1 [o|[|msg]|]]
    end; simpl in *; rewrite ?Hk; eauto.
Qed.

Lemma step_keeps_outputs_within (w : World) (op : Op) (s : TerminalManager) :
  outputs_within_commands s -> outputs_within_commands (step w op s).
Proof.
  unfold outputs_within_commands. intros H. destruct op; simpl.
  - rewrite execute_appends_command, length_app. simpl.
    destruct (execute_output_cases w s command timeout
                stream_output background working_dir) as [->|[o ->]];
      rewrite ?length_app; simpl; lia.
  - rewrite interactive_records_command, length_app. simpl.
    destruct (interactive_output_cases w s command inputs timeout working_dir)
      as [->|[o ->]]; rewrite ?length_app; simpl; lia.
  - rewrite (monitor_keeps_commands _ run process_id s eq_refl).
    rewrite (monitor_keeps_outputs run process_id _ s eq_refl). exact H.
Qed.

(** X4: along every session the output log never has more entries than
    the command log. *)
Theorem outputs_never_outnumber_commands
    (ops : list (World * Op)) (s : TerminalManager) :
  (length (output_history s) <= length (command_history s))%nat ->
  (length (output_history (run_ops ops s))
   <= length (command_history (run_ops ops s)))%nat.
Proof.
  revert s. induction ops as [|[w op] ops IH]; intros s H; simpl; [exact H|].
  apply IH. now apply step_keeps_outputs_within.
Qed.

Lemma outputs_never_outnumber_commands_witness :
  (length (output_history (run_ops session_absolute manager0))
   <= length (command_history (run_ops session_absolute manager0)))%nat.
Proof.
  apply (outputs_never_outnumber_commands session_absolute manager0).
  simpl. lia.
Defined.

Lemma interactive_keeps_registry_and_sets
    (w : World) (command : string) (inputs : option (list string))
    (timeout : option Z) (working_dir : option string)
    (rp : gmap string ProcessInfo) (pip npm : gset string) :
  stable (fun s => registry_is rp s /\ installed_are pip npm s)
    (execute_interactive_command w command inputs timeout working_dir).
Proof.
  unfold execute_interactive_command, execute_interactive_command_body,
    registry_is, installed_are.
  apply stable_try_except; [| |intros e]; [|stable_auto|stable_auto].
  apply stable_bind; [|intros _].
  { unfold store_working_dir.
    destruct working_dir as [d|]; [destruct (negb _)|]; stable_auto. }
  assert (Hlocal : forall c t,
             stable (fun s => running_processes s = rp
                              /\ installed_pip s = pip /\ installed_npm s = npm)
               (_run_local_command w c t)) by (intros; stable_auto).
  stable_steps; try apply Hlocal; stable_auto.
Qed.

(** X5: [execute_interactive_command] appends its command to the command
    log and at most one entry to the output log, and it never touches the
    process registry or the installed-package sets. *)
Theorem interactive_command_effects
    (w : World) (s : TerminalManager) (command : string)
    (inputs : option (list string)) (timeout : option Z) (working_dir : option string) :
  let s' := fst (execute_interactive_command w command inputs timeout working_dir s) in
  command_history s' = (command_history s ++ [command])%list /\
  (output_history s' = output_history s \/
   exists output, output_history s' = (output_history s ++ [output])%list) /\
  running_processes s' = running_processes s /\
  installed_pip s' = installed_pip s /\
  installed_npm s' = installed_npm s.
Proof.
  simpl. split; [apply interactive_records_command|].
  split; [apply interactive_output_cases|].
  destruct (interactive_keeps_registry_and_sets w command inputs timeout working_dir
              (running_processes s) (installed_pip s) (installed_npm s) s)
    as (Hrp & Hp & Hn); [repeat split|].
  repeat split; assumption.
Qed.

(** ** Failures of a plain command *)

(** X6: when the child of a plain command cannot be created, [execute_command]
    returns [False] with the system error embedded in the message; nothing
    is registered, no process is created and the output log is untouched. *)
Theorem execute_command_spawn_failure
    (w : World) (s : TerminalManager) (command : string) (timeout : option Z)
    (stream_output background : bool) (working_dir : option string) (msg : string) :
  let docker_command := docker_command_of s command working_dir in
  is_plain (_clean_command command) = true ->
  (if stream_output then stream_shell w docker_command = SpawnFails msg
   else local_shell w docker_command = SpawnFails msg) ->
  exists s',
    execute_command w command timeout stream_output background working_dir s
    = (s', Ret (false, "Error executing command '" ++ command ++ "': " ++ msg)) /\
    running_processes s' = running_processes s /\
    output_history s' = output_history s /\
    spawned s' = spawned s.
Proof.
  intros docker_command Hplain H.
  destruct (entered_fields command working_dir s)
    as (_ & _ & Eout & Erp & _ & _ & _ & _ & Esp & _).
  unfold execute_command, try_except. destruct stream_output.
  - rewrite body_plain_streaming by exact Hplain.
    unfold _execute_with_streaming. fold docker_command. rewrite H. run_monad.
    eexists. split; [reflexivity|]. simpl. repeat split; try assumption.
    unfold spawned in *. simpl. rewrite omap_app. simpl. rewrite app_nil_r. exact Esp.
  - rewrite body_plain_local by exact Hplain.
    unfold _run_local_command. fold docker_command. rewrite H. run_monad.
    eexists. split; [reflexivity|]. simpl. repeat split; try assumption.
    unfold spawned in *. simpl. rewrite omap_app. simpl. rewrite app_nil_r. exact Esp.
Qed.

Lemma execute_command_spawn_failure_witness :
  exists s',
    execute_command world_no_docker "ls" None true false None manager0
    = (s', Ret (false, "Error executing command 'ls': docker: not found")) /\
    running_processes s' = running_processes manager0 /\
    output_history s' = output_history manager0 /\
    spawned s' = spawned manager0.
Proof.
  apply (execute_command_spawn_failure world_no_docker manager0 "ls" None true false
           None "docker: not found").
  - reflexivity.
  - reflexivity.
Defined.

(** X7: when reading the output of a foreground child fails, [execute_command]
    returns [False] with the error in the message, and the record of the
    child stays in the registry, holding the output read so far. *)
Theorem foreground_stream_error_leaves_record
    (w : World) (s : TerminalManager) (command : string) (timeout : option Z)
    (working_dir : option string) (chunks : list string) (msg : string) :
  let docker_command := docker_command_of s command working_dir in
  let process_id := make_process_id w docker_command in
  is_plain (_clean_command command) = true ->
  stream_shell w docker_command = Spawned (StreamRaises chunks msg) ->
  exists s',
    execute_command w command timeout true false working_dir s
    = (s', Ret (false, "Error executing command '" ++ command ++ "': " ++ msg)) /\
    running_processes s' !! process_id
    = Some (mkProcessInfo docker_command false (or_int timeout (command_timeout s)) chunks) /\
    output_history s' = output_history s /\
    terminated s' = terminated s.
Proof.
  intros docker_command process_id Hplain H.
  destruct (entered_fields command working_dir s)
    as (_ & _ & Eout & _ & _ & _ & _ & _ & _ & Ete).
  unfold execute_command, try_except.
  rewrite body_plain_streaming by exact Hplain.
  unfold _execute_with_streaming, wait_for_stream. fold docker_command. rewrite H.
  fold process_id. run_monad. rewrite lookup_insert_eq. simpl.
  eexists. split; [reflexivity|]. simpl. repeat split; try assumption.
  - rewrite lookup_alter_eq, lookup_insert_eq. reflexivity.
  - unfold terminated in *. simpl. rewrite !omap_app. simpl.
    rewrite !app_nil_r. exact Ete.
Qed.

Lemma foreground_stream_error_leaves_record_witness :
  exists s',
    execute_command world_broken_pipe "make" None true false None manager0
    = (s', Ret (false, "Error executing command 'make': Broken pipe")) /\
    running_processes s'
      !! make_process_id world_broken_pipe (docker_command_of manager0 "make" None)
    = Some (mkProcessInfo (docker_command_of manager0 "make" None) false 300 ["cc -c a.c"]) /\
    output_history s' = output_history manager0 /\
    terminated s' = terminated manager0.
Proof.
  apply (foreground_stream_error_leaves_record world_broken_pipe manager0 "make" None
           None ["cc -c a.c"] "Broken pipe").
  - reflexivity.
  - reflexivity.
Defined.

(** X8: without streaming, a plain command that outlives its timeout T (and
    whose child does not survive the termination signal) yields [False]
    with the message "Command '<command>' timed out after T seconds": the
    child is terminated once, and neither the output log nor the message
    carries anything the child printed. *)
Theorem local_timeout_result
    (w : World) (s : TerminalManager) (command : string) (timeout : option Z)
    (background : bool) (working_dir : option string) (r : TermResponse) :
  let docker_command := docker_command_of s command working_dir in
  let T := or_int timeout (command_timeout s) in
  is_plain (_clean_command command) = true ->
  local_shell w docker_command = Spawned (LocalOverruns r) ->
  r <> TermIgnored ->
  exists s',
    execute_command w command timeout false background working_dir s
    = (s', Ret (false, "Command '" ++ command ++ "' timed out after "
                       ++ of_int T ++ " seconds")) /\
    output_history s' = output_history s /\
    running_processes s' = running_processes s /\
    terminated s' = (terminated s ++ [docker_command])%list.
Proof.
  intros docker_command T Hplain H Hr.
  destruct (entered_fields command working_dir s)
    as (_ & _ & Eout & Erp & _ & _ & _ & Et & _ & Ete).
  unfold execute_command, try_except.
  rewrite body_plain_local by exact Hplain.
  unfold _run_local_command. fold docker_command. rewrite H.
  destruct r; [| |congruence]; run_monad; rewrite Et;
    (eexists; split; [reflexivity|]; simpl; repeat split; try assumption;
     unfold terminated in *; simpl; rewrite !omap_app; simpl;
     rewrite !app_nil_r, Ete; reflexivity).
Qed.

Lemma local_timeout_result_witness :
  exists s',
    execute_command world_slow "sleep 5" (Some 1) false false None manager0
    = (s', Ret (false, "Command 'sleep 5' timed out after 1 seconds")) /\
    output_history s' = output_history manager0 /\
    running_processes s' = running_processes manager0 /\
    terminated s' = [docker_command_of manager0 "sleep 5" None].
Proof.
  apply (local_timeout_result world_slow manager0 "sleep 5" (Some 1) false None
           TermExits).
  - reflexivity.
  - reflexivity.
  - discriminate.
Defined.

(** ** The classifier on chunked output *)

Lemma append_assoc_s (a b c : string) : (a ++ b) ++ c = a ++ b ++ c.
Proof.
  induction a as [|x a IH]; [reflexivity|].
  rewrite !append_cons, IH. reflexivity.
Qed.

Lemma occurs_in_append (kw a pre post : string) :
  occurs_in kw a -> occurs_in kw (pre ++ a ++ post).
Proof.
  intros (x & y & ->). exists (pre ++ x), (y ++ post).
  rewrite !append_assoc_s. reflexivity.
Qed.

Lemma detect_error_append (output pre post : string) :
  _detect_error_in_output output = true ->
  _detect_error_in_output (pre ++ output ++ post) = true.
Proof.
  rewrite !detect_error_spec. intros (kw & Hin & Hocc).
  exists kw. split; [exact Hin|]. now apply occurs_in_append.
Qed.

(** X9: an error verdict on one chunk carries over to the joined output: if
    the classifier flags any chunk read from the child, it flags the full
    output the supervisor assembles from the chunks. *)
Theorem flagged_chunk_flags_output (chunks : list string) (chunk : string) :
  In chunk chunks ->
  _detect_error_in_output chunk = true ->
  _detect_error_in_output (String.concat EmptyString chunks) = true.
Proof.
  intros Hin Hd. induction chunks as [|c l IH]; [destruct Hin|].
  assert (Hc : String.concat EmptyString (c :: l)
               = c ++ String.concat EmptyString l).
  { destruct l; [symmetry; apply append_empty_r|reflexivity]. }
  rewrite Hc. destruct Hin as [->|Hin].
  - change (chunk ++ String.concat EmptyString l)
      with (EmptyString ++ chunk ++ String.concat EmptyString l).
    now apply detect_error_append.
  - rewrite <- (append_empty_r (String.concat EmptyString l)).
    apply detect_error_append. now apply IH.
Qed.

Lemma flagged_chunk_flags_output_witness :
  _detect_error_in_output
    (String.concat EmptyString ["compiling"; "fatal: out of memory"; "done"]) = true.
Proof.
  apply (flagged_chunk_flags_output ["compiling"; "fatal: out of memory"; "done"]
           "fatal: out of memory").
  - simpl. tauto.
  - reflexivity.
Defined.

(** ** The shape of a cleaned command *)

Lemma collapse_ws_single_spaced (b : bool) (s : string) :
  single_spaced b (collapse_ws b s) = true.
Proof.
  revert b. induction s as [|c s IH]; intros b; [reflexivity|].
  simpl. destruct (is_space c) eqn:E.
  - destruct b; [apply IH|]. simpl. rewrite IH. reflexivity.
  - simpl. rewrite E. apply IH.
Qed.

(** X10: a cleaned command contains no whitespace other than single spaces:
    no tab or newline, and no two adjacent spaces. *)
Theorem clean_command_single_spaced (command : string) :
  single_spaced false (_clean_command command) = true.
Proof. unfold _clean_command. apply collapse_ws_single_spaced. Qed.

(** ** Background monitors *)

Lemma monitor_keeps_other_records run process_id v :
  stable (fun s => delete process_id (running_processes s) = v)
    (_monitor_background_process run process_id).
Proof.
  unfold _monitor_background_process.
  stable_steps;
    try (intros ? H; simpl; rewrite ?delete_alter_eq, ?delete_delete_eq; exact H).
Qed.

(** X11: a background monitor changes nothing but the record of its own child
    and the event log: every other record stays, and the output of a
    background child reaches neither history log. *)
Theorem monitor_touches_only_its_record
    (run : StreamRun) (process_id : string) (s : TerminalManager) :
  let s' := fst (_monitor_background_process run process_id s) in
  delete process_id (running_processes s') = delete process_id (running_processes s) /\
  output_history s' = output_history s /\
  command_history s' = command_history s /\
  working_directory s' = working_directory s /\
  installed_pip s' = installed_pip s /\
  installed_npm s' = installed_npm s.
Proof.
  simpl. repeat split.
  - apply (monitor_keeps_other_records run process_id _ s eq_refl).
  - apply (monitor_keeps_outputs run process_id _ s eq_refl).
  - apply (monitor_keeps_commands _ run process_id s eq_refl).
  - apply (monitor_keeps_wd run process_id _ s eq_refl).
  - assert (H : stable (installed_are (installed_pip s) (installed_npm s))
                  (_monitor_background_process run process_id))
      by (unfold _monitor_background_process, installed_are; stable_auto).
    apply (H s). split; reflexivity.
  - assert (H : stable (installed_are (installed_pip s) (installed_npm s))
                  (_monitor_background_process run process_id))
      by (unfold _monitor_background_process, installed_are; stable_auto).
    apply (H s). split; reflexivity.
Qed.

(** ** Directory changes and the existence probe *)



(** ** Process identifiers *)

Lemma streaming_keeps_config w c t b name default :
  stable (fun s => terminal_container_name s = name /\ command_timeout s = default)
    (_execute_with_streaming w c t b).
Proof. stable_auto. Qed.

(** X13: process identifiers are built from the clock second and the hash of
    the command line only: a plain command started in the background twice
    within one second gets the same identifier both times, the second
    registration replaces the first, and the registry holds one record for
    two children. *)
Theorem background_same_command_same_second
    (w : World) (s : TerminalManager) (command : string) (timeout : option Z)
    (working_dir : option string) (run : StreamRun) :
  let docker_command := docker_command_of s command working_dir in
  let process_id := make_process_id w docker_command in
  let message := "Started background process " ++ process_id in
  is_plain (_clean_command command) = true ->
  stream_shell w docker_command = Spawned run ->
  exists s1 s2,
    execute_command w command timeout true true working_dir s = (s1, Ret (true, message)) /\
    execute_command w command timeout true true working_dir s1 = (s2, Ret (true, message)) /\
    running_processes s2 = running_processes s1 /\
    spawned s2 = (spawned s ++ [docker_command; docker_command])%list.
Proof.
  intros docker_command process_id message Hplain H.
  destruct (entered_fields command working_dir s)
    as (Ewd & _ & _ & Erp & _ & _ & Ename & Et & Esp & _).
  destruct (streaming_background w (entered command working_dir s) docker_command
              (or_int timeout (command_timeout s)) run H)
    as (s1 & Hrun1 & Hrp1 & Hev1 & _ & _ & Hwd1).
  pose proof (streaming_keeps_config w docker_command
                (or_int timeout (command_timeout s)) true _ _
                (entered command working_dir s) (conj eq_refl eq_refl)) as Hcfg.
  rewrite Hrun1 in Hcfg. simpl in Hcfg. destruct Hcfg as [Hname1 Ht1].
  rewrite Ename in Hname1. rewrite Et in Ht1.
  assert (Hdc : docker_command_of s1 command working_dir = docker_command).
  { unfold docker_command, docker_command_of. rewrite Hname1, Hwd1, Ewd.
    destruct working_dir as [d|]; simpl; [|reflexivity].
    destruct (String.eqb d EmptyString) eqn:E; simpl; rewrite ?E; reflexivity. }
  destruct (entered_fields command working_dir s1)
    as (_ & _ & _ & Erp2 & _ & _ & _ & _ & Esp2 & _).
  assert (H2 : stream_shell w (docker_command_of s1 command working_dir) = Spawned run)
    by (rewrite Hdc; exact H).
  destruct (streaming_background w (entered command working_dir s1)
              (docker_command_of s1 command working_dir)
              (or_int timeout (command_timeout s1)) run H2)
    as (s2 & Hrun2 & Hrp2 & Hev2 & _).
  rewrite Hdc in Hrun2, Hrp2, Hev2. rewrite Ht1 in Hrun2, Hrp2.
  fold process_id in Hrun2, Hrp2, Hev2, Hrp1, Hev1.
  exists s1, s2. repeat split.
  - apply execute_returns. rewrite body_plain_streaming by exact Hplain. exact Hrun1.
  - apply execute_returns. rewrite body_plain_streaming by exact Hplain.
    rewrite Hdc, Ht1. exact Hrun2.
  - rewrite Hrp2, Erp2, Hrp1. apply insert_insert_eq.
  - rewrite (spawned_app_events _ _ _ Hev2), Esp2, (spawned_app_events _ _ _ Hev1), Esp.
    simpl. rewrite <- app_assoc. reflexivity.
Qed.

Lemma background_same_command_same_second_witness :
  exists s1 s2,
    execute_command world_hello "python3 server.py" None true true None manager0
    = (s1, Ret (true, "Started background process process_1700000000_4242")) /\
    execute_command world_hello "python3 server.py" None true true None s1
    = (s2, Ret (true, "Started background process process_1700000000_4242")) /\
    running_processes s2 = running_processes s1 /\
    spawned s2
    = [docker_command_of manager0 "python3 server.py" None;
       docker_command_of manager0 "python3 server.py" None].
Proof.
  apply (background_same_command_same_second world_hello manager0 "python3 server.py"
           None None (StreamCompletes ["hello"; nl] 0)).
  - reflexivity.
  - reflexivity.
Defined.

(** ** What an install may add *)

Section InstalledBounds.

#[local] Arguments _execute_with_streaming : simpl never.
#[local] Arguments not_installed : simpl never.
#[local] Arguments list_to_set : simpl never.
#[local] Arguments _clean_command : simpl never.

Variables (lo_pip hi_pip lo_npm hi_npm : gset string).

Lemma between_ignores_events :
  ignores_events (installed_between lo_pip hi_pip lo_npm hi_npm).
Proof. intros s ev H. exact H. Qed.

Lemma streaming_keeps_between w c t b :
  stable (installed_between lo_pip hi_pip lo_npm hi_npm)
    (_execute_with_streaming w c t b).
Proof. unfold installed_between. stable_auto. Qed.

Lemma local_keeps_between w c t :
  stable (installed_between lo_pip hi_pip lo_npm hi_npm) (_run_local_command w c t).
Proof. unfold installed_between. stable_auto. Qed.

Lemma cd_keeps_between w c :
  stable (installed_between lo_pip hi_pip lo_npm hi_npm) (_handle_cd_command w c).
Proof.
  unfold _handle_cd_command.
  stable_steps; try apply local_keeps_between; unfold installed_between; stable_auto.
Qed.

Lemma not_installed_subset (installed : gset string) (packages : list string) :
  list_to_set (not_installed installed packages) ⊆@{gset string} list_to_set packages.
Proof.
  intros x. rewrite !elem_of_list_to_set. unfold not_installed.
  rewrite !list_elem_of_In, filter_In. tauto.
Qed.

Lemma pip_keeps_between w c :
  (mem "-r" (split c) = false -> list_to_set (pip_packages c) ⊆ hi_pip) ->
  stable (installed_between lo_pip hi_pip lo_npm hi_npm) (_handle_pip_install w c).
Proof.
  intros Hhi s Hs. unfold _handle_pip_install.
  destruct (mem "-r" (split c)).
  - unfold _prepare_docker_command. run_monad. now apply streaming_keeps_between.
  - specialize (Hhi eq_refl). unfold bind at 1, gets at 1. fold (pip_packages c).
    destruct (not_installed (installed_pip s) (pip_packages c)) as [|p l] eqn:En.
    + run_monad. exact Hs.
    + unfold _prepare_docker_command. run_monad.
      match goal with
      | |- context [_execute_with_streaming w ?dc ?t false s] =>
          pose proof (streaming_keeps_between w dc t false s Hs) as Hk;
          destruct (_execute_with_streaming w dc t false s) as [sB [[b o']|e|]]
      end; simpl in *; try exact Hk.
      destruct b; simpl; [|exact Hk].
      pose proof (not_installed_subset (installed_pip s) (pip_packages c)) as Hsub.
      rewrite En in Hsub. destruct Hk as [[Hl Hh] Hn].
      split; [|exact Hn]. simpl. split.
      * now apply union_subseteq_l'.
      * apply union_least; [exact Hh|]. etransitivity; [exact Hsub|exact Hhi].
Qed.

Lemma npm_keeps_between w c :
  ((mem "-g" (split c) || mem "--global" (split c))%bool = false ->
   list_to_set (npm_packages c) ⊆ hi_npm) ->
  stable (installed_between lo_pip hi_pip lo_npm hi_npm) (_handle_npm_install w c).
Proof.
  intros Hhi s Hs. unfold _handle_npm_install. unfold npm_packages in Hhi.
  destruct (split c) as [|parts_0 parts]; [exact Hs|].
  destruct (_ || _)%bool.
  - unfold _prepare_docker_command. run_monad. now apply streaming_keeps_between.
  - specialize (Hhi eq_refl). unfold bind at 1, gets at 1.
    destruct (not_installed (installed_npm s) _) as [|p l] eqn:En.
    + run_monad. exact Hs.
    + unfold _prepare_docker_command. run_monad.
      match goal with
      | |- context [_execute_with_streaming w ?dc ?t false s] =>
          pose proof (streaming_keeps_between w dc t false s Hs) as Hk;
          destruct (_execute_with_streaming w dc t false s) as [sB [[b o']|e|]]
      end; simpl in *; try exact Hk.
      destruct b; simpl; [|exact Hk].
      match type of En with
      | not_installed ?i ?pk = _ => pose proof (not_installed_subset i pk) as Hsub
      end.
      rewrite En in Hsub. destruct Hk as [Hp [Hl Hh]].
      split; [exact Hp|]. simpl. split.
      * now apply union_subseteq_l'.
      * apply union_least; [exact Hh|]. etransitivity; [exact Hsub|exact Hhi].
Qed.

End InstalledBounds.

(** X14: [execute_command] never removes a package from an installed set, and
    it adds only packages that the deduplicating handler of the matching
    manager read off the command: nothing for any other command, and
    nothing to the other manager's set. *)
Theorem installed_sets_grow_by_requested_only
    (w : World) (s : TerminalManager) (command : string) (timeout : option Z)
    (stream_output background : bool) (working_dir : option string) :
  let cleaned := _clean_command command in
  let s' := fst (execute_command w command timeout stream_output background
                   working_dir s) in
  (installed_pip s ⊆ installed_pip s' /\
   installed_pip s' ⊆
     installed_pip s ∪ list_to_set (if pip_dedup cleaned then pip_packages cleaned else [])) /\
  (installed_npm s ⊆ installed_npm s' /\
   installed_npm s' ⊆
     installed_npm s ∪ list_to_set (if npm_dedup cleaned then npm_packages cleaned else [])).
Proof.
  intros cleaned. simpl. subst cleaned. set (cleaned := _clean_command command).
  set (hi_pip := installed_pip s
                 ∪ list_to_set (if pip_dedup cleaned then pip_packages cleaned else [])).
  set (hi_npm := installed_npm s
                 ∪ list_to_set (if npm_dedup cleaned then npm_packages cleaned else [])).
  change (installed_between (installed_pip s) hi_pip (installed_npm s) hi_npm
            (fst (execute_command w command timeout stream_output background
                    working_dir s))).
  assert (He : installed_between (installed_pip s) hi_pip (installed_npm s) hi_npm
                 (entered command working_dir s)).
  { destruct (entered_fields command working_dir s) as (_ & _ & _ & _ & Ep & En & _).
    unfold installed_between. rewrite Ep, En. subst hi_pip hi_npm.
    repeat split; first [reflexivity | apply union_subseteq_l]. }
  pose proof (between_ignores_events (installed_pip s) hi_pip (installed_npm s) hi_npm)
    as Hev.
  destruct (is_cd cleaned) eqn:Ecd.
  { eapply execute_command_from_entered; eauto using body_cd, cd_keeps_between. }
  destruct (is_pip_install cleaned) eqn:Epip.
  { eapply execute_command_from_entered; eauto using body_pip.
    apply pip_keeps_between. intros Hr. subst hi_pip.
    fold cleaned in Hr. unfold pip_dedup. rewrite Epip, Hr. simpl. set_solver. }
  destruct (is_npm_install cleaned) eqn:Enpm.
  { eapply execute_command_from_entered; eauto using body_npm.
    apply npm_keeps_between. intros Hg. subst hi_npm.
    fold cleaned in Hg. unfold npm_dedup. rewrite Epip, Enpm, Hg. simpl. set_solver. }
  assert (Hplain : is_plain cleaned = true)
    by (unfold is_plain; rewrite Ecd, Epip, Enpm; reflexivity).
  destruct stream_output.
  - eapply execute_command_from_entered;
      eauto using body_plain_streaming, streaming_keeps_between.
  - eapply execute_command_from_entered; eauto using body_plain_local.
    apply stable_bind; [apply local_keeps_between|intros output].
    unfold installed_between. stable_auto.
Qed.

(** ** Shutdown *)

Section Shutdown.
Variable response : string -> TermResponse.

Lemma terminate_all_returns (items : list (string * ProcessInfo)) (s : TerminalManager) :
  (forall item, In item items -> response (fst item) <> TermIgnored) ->
  exists s',
    terminate_all response items s = (s', Ret tt) /\
    running_processes s' = running_processes s /\
    command_history s' = command_history s /\
    output_history s' = output_history s /\
    terminated s' = (terminated s ++ List.map (fun item => p_command (snd item)) items)%list.
Proof.
  revert s. induction items as [|[pid info] items IH]; intros s Hall.
  - exists s. simpl. rewrite app_nil_r. repeat split.
  - assert (Hpid : response pid <> TermIgnored) by (apply (Hall (pid, info)); now left).
    destruct (IH (set_events (events s ++ [EvTerminate (p_command info)]) s))
      as (s' & Hrun & Hrp & Hc & Ho & Hte).
    { intros item Hin. apply Hall. now right. }
    exists s'. simpl. unfold terminate_and_wait.
    destruct (response pid); [| |congruence]; run_monad; rewrite Hrun;
      (split; [reflexivity|]; repeat split; try assumption;
       rewrite Hte; unfold terminated; simpl; rewrite omap_app; simpl;
       rewrite <- app_assoc; reflexivity).
Qed.

End Shutdown.

(** X15: when every registered child exits on termination, [shutdown] sends
    each of them one [terminate()], returns, and leaves the registry empty;
    a second [shutdown] then returns at once without signalling anything. *)
Theorem shutdown_clears_registry
    (response response' : string -> TermResponse) (s : TerminalManager) :
  all_exit response (running_processes s) ->
  exists s' s'',
    shutdown response s = (s', Ret tt) /\
    running_processes s' = ∅ /\
    terminated s'
    = (terminated s
       ++ List.map (fun item => p_command (snd item))
            (map_to_list (running_processes s)))%list /\
    shutdown response' s' = (s'', Ret tt) /\
    running_processes s'' = ∅ /\
    events s'' = events s'.
Proof.
  intros Hall.
  destruct (terminate_all_returns response (map_to_list (running_processes s)) s)
    as (s1 & Hrun & _ & _ & _ & Hte).
  { intros [pid info] Hin. apply Hall. simpl.
    apply list_elem_of_In, elem_of_map_to_list in Hin. eauto. }
  exists (set_running_processes ∅ s1), (set_running_processes ∅ s1).
  unfold shutdown. run_monad. rewrite Hrun. simpl.
  repeat split; try assumption.
Qed.

Lemma shutdown_clears_registry_witness :
  exists s' s'',
    shutdown (fun _ => TermExits) manager_two_children = (s', Ret tt) /\
    running_processes s' = ∅ /\
    terminated s'
    = (terminated manager_two_children
       ++ List.map (fun item => p_command (snd item))
            (map_to_list (running_processes manager_two_children)))%list /\
    shutdown (fun _ => TermIgnored) s' = (s'', Ret tt) /\
    running_processes s'' = ∅ /\
    events s'' = events s'.
Proof.
  apply (shutdown_clears_registry (fun _ => TermExits) (fun _ => TermIgnored)
           manager_two_children).
  intros process_id _. discriminate.
Defined.

(** ** Installing the basic tools *)

(** X16: when [_install_basic_tools] returns, it has issued exactly one
    [apt-get install -y <tool>] per tool, in the order of the list, whether
    or not the individual installs succeeded. *)
Theorem install_basic_tools_issues_one_command_per_tool
    (w : World) (tools : list string) (s s' : TerminalManager) :
  _install_basic_tools w tools s = (s', Ret tt) ->
  command_history s'
  = (command_history s
     ++ List.map (fun tool => ("apt-get install -y " ++ tool)%string) tools)%list.
Proof.
  revert s s'. induction tools as [|tool tools IH]; intros s s' H; simpl in H.
  - injection H as <-. now rewrite app_nil_r.
  - unfold bind at 1, try_except in H. unfold bind at 1 in H.
    pose proof (execute_appends_command w s ("apt-get install -y " ++ tool)
                  None true false None) as Hc.
    pose proof (execute_never_raises w s ("apt-get install -y " ++ tool)
                  None true false None) as Hn.
    destruct (execute_command w ("apt-get install -y " ++ tool) None true false None s)
      as [s1 [r|e|]]; simpl in *.
    + apply IH in H. rewrite H, Hc, <- app_assoc. reflexivity.
    + destruct (Hn e eq_refl).
    + discriminate.
Qed.

Lemma install_basic_tools_issues_one_command_per_tool_witness :
  command_history (fst (_install_basic_tools world_exit1 ["git"; "curl"] manager0))
  = ["apt-get install -y git"; "apt-get install -y curl"].
Proof.
  apply (install_basic_tools_issues_one_command_per_tool world_exit1 ["git"; "curl"]
           manager0 (fst (_install_basic_tools world_exit1 ["git"; "curl"] manager0))).
  vm_compute. reflexivity.
Defined.

(** ** Directory listings *)

Section Strip.

Lemma rstrip_idempotent (s : string) : rstrip (rstrip s) = rstrip s.
Proof.
  induction s as [|c s IH]; [reflexivity|]. simpl.
  destruct (rstrip s) as [|c' r] eqn:E.
  - destruct (is_space c) eqn:Ec; [reflexivity|]. simpl. rewrite Ec. reflexivity.
  - change (rstrip (String c (String c' r)))
      with (match rstrip (String c' r) with
            | EmptyString => if is_space c then EmptyString else String c EmptyString
            | r' => String c r'
            end).
    rewrite IH. reflexivity.
Qed.

Lemma lstrip_rstrip_lstrip (s : string) : lstrip (rstrip (lstrip s)) = rstrip (lstrip s).
Proof.
  induction s as [|c s IH]; [reflexivity|]. simpl.
  destruct (is_space c) eqn:Ec; [exact IH|].
  simpl. destruct (rstrip s); simpl; rewrite Ec; simpl; rewrite ?Ec; reflexivity.
Qed.

Lemma strip_idempotent (s : string) : strip (strip s) = strip s.
Proof.
  unfold strip. rewrite lstrip_rstrip_lstrip. apply rstrip_idempotent.
Qed.

End Strip.

(** X17: every name [list_directory] returns is non-empty and free of leading
    and trailing whitespace: blank lines of the listing are dropped and
    the others are stripped. *)
Theorem list_directory_names_are_stripped
    (w : World) (dir_path : string) (s : TerminalManager) (names : list string)
    (name : string) :
  snd (list_directory w dir_path s) = Ret names ->
  In name names ->
  name <> EmptyString /\ strip name = name.
Proof.
  unfold list_directory, try_except, _run_local_command.
  unfold bind at 1, gets at 1. unfold bind at 1.
  assert (Hlines : forall result, In name (stripped_lines result) ->
                                  name <> EmptyString /\ strip name = name).
  { intros result Hin. unfold stripped_lines in Hin.
    apply in_map_iff in Hin as (line & <- & Hin).
    apply filter_In in Hin as [_ Hne]. apply negb_true_iff, String.eqb_neq in Hne.
    split; [exact Hne|apply strip_idempotent]. }
  destruct (local_shell w _) as [msg|[stdout stderr rc|r]]; run_monad.
  - intros H; injection H as <-. intros [].
  - intros H; injection H as <-. apply Hlines.
  - discriminate.
Qed.

Lemma list_directory_names_are_stripped_witness :
  "src" <> EmptyString /\ strip "src" = "src".
Proof.
  apply (list_directory_names_are_stripped world_listing "/workspace" manager0
           ["."; ".."; "src"; "README.md"] "src").
  - reflexivity.
  - simpl. tauto.
Defined.

(** ** The status view of the history logs *)

Section Suffixes.
Context {A B : Type}.

Lemma combine_skipn (k : nat) (a : list A) (b : list B) :
  List.combine (List.skipn k a) (List.skipn k b) = List.skipn k (List.combine a b).
Proof.
  revert a b. induction k as [|k IH]; intros a b; [reflexivity|].
  destruct a as [|x a]; [reflexivity|]. destruct b as [|y b]; simpl.
  - now destruct (List.skipn k a).
  - apply IH.
Qed.

End Suffixes.

Lemma last_n_length {A} (n : nat) (l : list A) :
  (length (Utils.last_n n l) <= n)%nat.
Proof. unfold Utils.last_n. rewrite length_skipn. lia. Qed.

(** X18: the history shown by [get_status] has at most ten entries, whatever
    the two logs hold; when the two logs have the same length it consists
    of the last (up to ten) command/output pairs of the same calls, in
    order. *)
Theorem status_history_pairs_aligned_logs (s : TerminalManager) :
  (length (Utils.terminal_history s) <= 10)%nat /\
  (length (command_history s) = length (output_history s) ->
   Utils.terminal_history s
   = Utils.last_n 10 (List.combine (command_history s) (output_history s))).
Proof.
  unfold Utils.terminal_history, get_command_history, get_output_history. split.
  - rewrite length_combine.
    destruct (command_history s) as [|c cs]; [simpl; lia|].
    pose proof (last_n_length 10 (c :: cs)). lia.
  - intros Hlen. unfold Utils.last_n.
    destruct (command_history s) as [|c cs] eqn:Ec;
      destruct (output_history s) as [|o os] eqn:Eo; try discriminate.
    + reflexivity.
    + remember (c :: cs) as a. remember (o :: os) as b.
      rewrite <- Hlen, combine_skipn. f_equal. rewrite length_combine. lia.
Qed.

Lemma status_history_pairs_aligned_logs_witness :
  (length (Utils.terminal_history manager_after_two) <= 10)%nat /\
  Utils.terminal_history manager_after_two
  = Utils.last_n 10
      (List.combine (command_history manager_after_two) (output_history manager_after_two)).
Proof.
  destruct (status_history_pairs_aligned_logs manager_after_two) as [Hbound Haligned].
  split; [exact Hbound|]. apply Haligned. reflexivity.
Defined.

(** ** Writing a file *)

Lemma bind_ret_inv {A B} (m : M A) (k : A -> M B) (s s' : TerminalManager) (b : B) :
  bind m k s = (s', Ret b) ->
  exists a s1, m s = (s1, Ret a) /\ k a s1 = (s', Ret b).
Proof.
  unfold bind. destruct (m s) as [s1 [a|e|]]; intros H; try discriminate. eauto.
Qed.

Lemma check_file_exists_true (w : World) (file_path : string) (s s' : TerminalManager) :
  check_file_exists w file_path s = (s', Ret true) ->
  exists stdout stderr rc,
    local_shell w (file_check_cmd (terminal_container_name s) file_path)
    = Spawned (LocalCompletes stdout stderr rc) /\
    contains "exists" (local_output stdout stderr) = true.
Proof.
  unfold check_file_exists, try_except, _run_local_command.
  unfold bind at 1, gets at 1. unfold bind at 1.
  destruct (local_shell w _) as [msg|[stdout stderr rc|r]]; run_monad;
    intros H; try discriminate.
  injection H as _ H. eauto.
Qed.

Section ContainerName.
Variable name : string.

Lemma streaming_keeps_name w c t b :
  stable (fun s => terminal_container_name s = name) (_execute_with_streaming w c t b).
Proof. stable_auto. Qed.

Lemma local_keeps_name w c t :
  stable (fun s => terminal_container_name s = name) (_run_local_command w c t).
Proof. stable_auto. Qed.

Lemma execute_keeps_name w command timeout so bg wd s :
  terminal_container_name s = name ->
  terminal_container_name (fst (execute_command w command timeout so bg wd s)) = name.
Proof.
  intros Hs.
  apply (execute_command_post w command timeout bg wd
           (fun s => terminal_container_name s = name)).
  - intros s0 ev H. exact H.
  - now destruct (entered_fields command wd s) as (_ & _ & _ & _ & _ & _ & -> & _).
  - unfold _handle_cd_command. stable_steps; try apply local_keeps_name; stable_auto.
  - unfold _handle_pip_install.
    stable_steps; try apply streaming_keeps_name; stable_auto.
  - unfold _handle_npm_install.
    stable_steps; try apply streaming_keeps_name; stable_auto.
  - intros. apply streaming_keeps_name.
  - intros. apply local_keeps_name.
  - intros s0 o H. exact H.
Qed.

End ContainerName.

(** X19: [write_file] reports success only when the final probe found the
    file: [True] is returned only if the [[ -f path ]] probe, run after the
    write, printed "exists". *)
Theorem write_file_success_means_probe_found
    (w : World) (file_path content : string) (s : TerminalManager) :
  snd (write_file w file_path content s) = Ret true ->
  exists stdout stderr rc,
    local_shell w (file_check_cmd (terminal_container_name s) file_path)
    = Spawned (LocalCompletes stdout stderr rc) /\
    contains "exists" (local_output stdout stderr) = true.
Proof.
  unfold write_file, try_except.
  match goal with
  | |- snd (match ?body s with _ => _ end) = _ -> _ =>
      destruct (body s) as [s' [r|[|msg]|]] eqn:Hbody
  end; simpl; intros H; try discriminate.
  injection H as ->.
  apply bind_ret_inv in Hbody as (u & s1 & Hmk & Hbody).
  apply bind_ret_inv in Hbody as (name & s1' & Hname & Hbody).
  injection Hname as <- <-.
  apply bind_ret_inv in Hbody as (out & s2 & Hecho & Hbody).
  apply check_file_exists_true in Hbody as (stdout & stderr & rc & Hshell & Hfound).
  assert (Hn1 : terminal_container_name s1 = terminal_container_name s).
  { destruct (negb (String.eqb (PosixPath.dirname file_path) EmptyString)).
    - apply bind_ret_inv in Hmk as (r & s0 & Hexec & Hret). injection Hret as <-.
      pose proof (execute_keeps_name (terminal_container_name s) w
                    ("mkdir -p " ++ PosixPath.dirname file_path) None true false None s
                    eq_refl) as Hk.
      rewrite Hexec in Hk. exact Hk.
    - injection Hmk as <-. reflexivity. }
  assert (Hn2 : terminal_container_name s2 = terminal_container_name s).
  { pose proof (local_keeps_name (terminal_container_name s) w
                  (write_cmd (terminal_container_name s1) file_path content) None s1 Hn1)
      as Hk.
    rewrite Hecho in Hk. exact Hk. }
  rewrite Hn2 in Hshell. eauto.
Qed.

Lemma write_file_success_means_probe_found_witness :
  exists stdout stderr rc,
    local_shell world_exists (file_check_cmd (terminal_container_name manager0) "notes.txt")
    = Spawned (LocalCompletes stdout stderr rc) /\
    contains "exists" (local_output stdout stderr) = true.
Proof.
  apply (write_file_success_means_probe_found world_exists "notes.txt" "hello" manager0).
  vm_compute. reflexivity.
Defined.

(** X20: [write_file] goes through [execute_command] to create the parent
    directory: whenever the path has a directory part, the command
    "mkdir -p <directory>" is appended to the command log, whatever happens
    afterwards; a bare file name leaves the log as it is. *)
Theorem write_file_logs_mkdir
    (w : World) (file_path content : string) (s : TerminalManager) :
  command_history (fst (write_file w file_path content s))
  = (command_history s
     ++ (if String.eqb (PosixPath.dirname file_path) EmptyString then []
         else [("mkdir -p " ++ PosixPath.dirname file_path)%string]))%list.
Proof.
  unfold write_file.
  set (dir_path := PosixPath.dirname file_path).
  set (v := (command_history s
             ++ (if String.eqb dir_path EmptyString then []
                 else [("mkdir -p " ++ dir_path)%string]))%list).
  assert (Hrest : stable (commands_are v)
                    (name <- gets terminal_container_name ;;
                     _ <- _run_local_command w (write_cmd name file_path content) None ;;
                     check_file_exists w file_path)).
  { unfold check_file_exists.
    stable_steps; try apply local_keeps_commands; unfold commands_are; stable_auto. }
  destruct (String.eqb dir_path EmptyString) eqn:E; cbn [negb]; unfold try_except.
  - unfold bind at 1, ret at 1. specialize (Hrest s).
    match goal with
    | |- context [bind ?m ?k s] => destruct (bind m k s) as [s' [r|[|msg]|]]
    end; simpl in *; apply Hrest; unfold commands_are, v; now rewrite app_nil_r.
  - unfold bind at 1 2.
    pose proof (execute_appends_command w s ("mkdir -p " ++ dir_path)
                  None true false None) as Hc.
    pose proof (execute_never_raises w s ("mkdir -p " ++ dir_path)
                  None true false None) as Hn.
    destruct (execute_command w ("mkdir -p " ++ dir_path) None true false None s)
      as [s1 [r|e|]]; simpl in *.
    + specialize (Hrest s1).
      match goal with
      | |- context [bind ?m ?k s1] => destruct (bind m k s1) as [s' [r'|[|msg]|]]
      end; simpl in *; apply Hrest; exact Hc.
    + destruct (Hn e eq_refl).
    + exact Hc.
Qed.

(** ** Test setup for JavaScript projects *)

Section Probes.
Variables (w : World) (path : string) (s : TerminalManager)
          (stdout stderr : string) (rc : Z).

Lemma check_file_exists_completes :
  local_shell w (file_check_cmd (terminal_container_name s) path)
  = Spawned (LocalCompletes stdout stderr rc) ->
  check_file_exists w path s
  = (set_events
       (events s ++ [EvSpawned (file_check_cmd (terminal_container_name s) path)]) s,
     Ret (contains "exists" (local_output stdout stderr))).
Proof.
  intros H. unfold check_file_exists, try_except, _run_local_command.
  unfold bind at 1, gets at 1. unfold bind at 1. rewrite H. reflexivity.
Qed.

Lemma check_directory_exists_completes :
  local_shell w (dir_check_cmd (terminal_container_name s) path)
  = Spawned (LocalCompletes stdout stderr rc) ->
  check_directory_exists w path s
  = (set_events
       (events s ++ [EvSpawned (dir_check_cmd (terminal_container_name s) path)]) s,
     Ret (contains "exists" (local_output stdout stderr))).
Proof.
  intros H. unfold check_directory_exists, try_except, _run_local_command.
  unfold bind at 1, gets at 1. unfold bind at 1. rewrite H. reflexivity.
Qed.

End Probes.

Lemma bind_step {A B} (m : M A) (k : A -> M B) (s s1 : TerminalManager) (a : A) :
  m s = (s1, Ret a) -> bind m k s = k a s1.
Proof. intros H. unfold bind. rewrite H. reflexivity. Qed.

(** An npm install on the deduplicating path whose package list is empty
    is answered at once. *)
Lemma execute_npm_install_skipped
    (w : World) (s : TerminalManager) (command : string) (timeout : option Z)
    (stream_output background : bool) (working_dir : option string) :
  npm_dedup (_clean_command command) = true ->
  npm_packages (_clean_command command) = [] ->
  exists s',
    execute_command w command timeout stream_output background working_dir s
    = (s', Ret (true, "All packages already installed: ")) /\
    spawned s' = spawned s /\
    command_history s' = (command_history s ++ [command])%list /\
    output_history s' = output_history s /\
    installed_npm s' = installed_npm s.
Proof.
  intros Hpath Hnone. unfold npm_dedup in Hpath.
  apply andb_true_iff in Hpath as [Hpath Hg].
  apply andb_true_iff in Hpath as [Hpip Hnpm].
  apply negb_true_iff in Hpip, Hg.
  destruct (entered_fields command working_dir s)
    as (_ & Ecmd & Eout & _ & _ & Enpm & _ & _ & Esp & _).
  destruct (npm_skip w (_clean_command command) (entered command working_dir s) Hg
              (npm_split_nonempty _ Hnpm)) as (s' & Hrun & _ & Hn & _ & Hout & Hsp).
  { rewrite Hnone. reflexivity. }
  rewrite Hnone in Hrun.
  pose proof (npm_keeps_commands (command_history s ++ [command]) w
                (_clean_command command) (entered command working_dir s) Ecmd) as Hc.
  rewrite Hrun in Hc. unfold commands_are in Hc. simpl in Hc.
  exists s'. split; [|repeat split; congruence].
  apply execute_returns. rewrite body_npm by auto using npm_not_cd. exact Hrun.
Qed.

(** X21: for a JavaScript project that has a package.json and no node_modules
    directory, [_run_test_setup] issues "npm install --save-dev jest", but
    no process is started for it: the flag takes "jest" as its value, the
    package list is empty, and the only children created are the two
    probes.  Jest is neither installed nor recorded as installed. *)
Theorem javascript_test_setup_never_installs_jest
    (w : World) (s : TerminalManager) (directory : string)
    (out1 err1 out2 err2 : string) (rc1 rc2 : Z) :
  let name := terminal_container_name s in
  let file_probe := file_check_cmd name (PosixPath.join directory "package.json") in
  let dir_probe := dir_check_cmd name (PosixPath.join directory "node_modules") in
  local_shell w file_probe = Spawned (LocalCompletes out1 err1 rc1) ->
  contains "exists" (local_output out1 err1) = true ->
  local_shell w dir_probe = Spawned (LocalCompletes out2 err2 rc2) ->
  contains "exists" (local_output out2 err2) = false ->
  exists s',
    CodeTester._run_test_setup w "javascript" directory s = (s', Ret tt) /\
    spawned s' = (spawned s ++ [file_probe; dir_probe])%list /\
    command_history s' = (command_history s ++ ["npm install --save-dev jest"])%list /\
    output_history s' = output_history s /\
    installed_npm s' = installed_npm s.
Proof.
  intros name file_probe dir_probe Hfile Hfound Hdir Hmissing.
  pose proof (check_file_exists_completes w _ s out1 err1 rc1 Hfile) as E1.
  rewrite Hfound in E1. fold name in E1. fold file_probe in E1.
  set (s1 := set_events (events s ++ [EvSpawned file_probe]) s) in *.
  assert (Hdir1 : local_shell w (dir_check_cmd (terminal_container_name s1)
                                   (PosixPath.join directory "node_modules"))
                  = Spawned (LocalCompletes out2 err2 rc2)) by exact Hdir.
  pose proof (check_directory_exists_completes w _ s1 out2 err2 rc2 Hdir1) as E2.
  rewrite Hmissing in E2. change (terminal_container_name s1) with name in E2.
  fold dir_probe in E2.
  set (s2 := set_events (events s1 ++ [EvSpawned dir_probe]) s1) in *.
  destruct (execute_npm_install_skipped w s2 "npm install --save-dev jest" None true
              false (Some directory)) as (s3 & E3 & Hsp & Hc & Ho & Hn);
    [reflexivity|reflexivity|].
  exists s3. split.
  - unfold CodeTester._run_test_setup, try_except.
    change (String.eqb "javascript" "python") with false.
    change (String.eqb "javascript" "typescript") with false.
    change (mem "javascript" ["javascript"; "typescript"]) with true.
    cbv iota. rewrite (bind_step _ _ _ _ _ E1). cbn [negb]. cbv iota.
    rewrite (bind_step _ _ s1 s1 tt eq_refl).
    rewrite (bind_step _ _ _ _ _ E2). cbn [negb]. cbv iota.
    rewrite (bind_step _ _ _ _ _ E3). reflexivity.
  - repeat split; try assumption.
    unfold spawned in *. rewrite Hsp. subst s2 s1. simpl.
    rewrite !omap_app. simpl. rewrite <- app_assoc. reflexivity.
Qed.

Lemma javascript_test_setup_never_installs_jest_witness :
  exists s',
    CodeTester._run_test_setup world_fresh_project "javascript" "/workspace/app" manager0
    = (s', Ret tt) /\
    spawned s'
    = [file_check_cmd "ai_agent_terminal" "/workspace/app/package.json";
       dir_check_cmd "ai_agent_terminal" "/workspace/app/node_modules"] /\
    command_history s' = ["npm install --save-dev jest"] /\
    output_history s' = [] /\
    installed_npm s' = installed_npm manager0.
Proof.
  apply (javascript_test_setup_never_installs_jest world_fresh_project manager0
           "/workspace/app" ("exists" ++ nl) EmptyString EmptyString EmptyString 0 1).
  - reflexivity.
  - reflexivity.
  - reflexivity.
  - reflexivity.
Defined.

(** ** Helpers that ignore the exit code *)


